(** * A conversational stock screener and its fundamentals loader

    Shallow embedding of [Nlp_stock.py] (class [NLPStockScreener]) and of
    [scraper.py] (class [StockDataScraper]).  Python values, strings and
    slices are modelled first; the two classes follow, each in a module of
    its own; the properties come last. *)

From Stdlib Require Import ZArith Ascii Floats.PrimFloat.
From stdpp Require Import gmap strings list pretty.

(** ** Python values and built-ins *)

Module Py.

(** The scalar values that travel through the program: what the provider's
    [info] dictionary holds for the fields read here, what [sqlite3] binds
    and returns (NULL, INTEGER, REAL, TEXT). *)
Inductive PyVal : Type :=
  | PyNone
  | PyInt (z : Z)
  | PyFloat (f : float)
  | PyStr (s : string).

(** An instance of [Exception]; [exn_str e] is [str(e)]. *)
Record Exn : Type := MkExn { exn_str : string }.

(** Truth value testing: [None], zero of either numeric type (negative
    zero included, NaN excluded) and the empty string are false. *)
Definition truthy (v : PyVal) : bool :=
  match v with
  | PyNone => false
  | PyInt z => negb (z =? 0)%Z
  | PyFloat f => negb (PrimFloat.eqb f 0%float)
  | PyStr EmptyString => false
  | PyStr (String _ _) => true
  end.

(** [a or b] *)
Definition py_or (a b : PyVal) : PyVal := if truthy a then a else b.

(** [s * n] for a string. *)
Fixpoint str_repeat (s : string) (n : nat) : string :=
  match n with
  | O => EmptyString
  | S k => s +:+ str_repeat s k
  end.

(** [v * 100], the right-hand side of [v *= 100]: integer product, float
    product with [100.0], string repetition; on [None] a [TypeError]. *)
Definition py_mul100 (v : PyVal) : Exn + PyVal :=
  match v with
  | PyNone => inl (MkExn "unsupported operand type(s) for *=: 'NoneType' and 'int'")
  | PyInt z => inr (PyInt (z * 100))
  | PyFloat f => inr (PyFloat (f * 100)%float)
  | PyStr s => inr (PyStr (str_repeat s 100))
  end.

(** [d.get(key)] and [d.get(key, dflt)] *)
Definition dict_get (d : gmap string PyVal) (key : string) : PyVal :=
  default PyNone (d !! key).
Definition dict_get_or (d : gmap string PyVal) (key : string) (dflt : PyVal) : PyVal :=
  default dflt (d !! key).

(** [dict(pairs)]: a later pair overrides an earlier one with the same key. *)
Definition py_dict (pairs : list (string * PyVal)) : gmap string PyVal :=
  fold_left (fun d kv => <[kv.1 := kv.2]> d) pairs ∅.

(** [needle in hay] on strings. *)
Fixpoint contains (needle hay : string) : bool :=
  String.prefix needle hay ||
  match hay with
  | EmptyString => false
  | String _ rest => contains needle rest
  end.

(** [any(word in query for word in words)] *)
Definition any_in (words : list string) (query : string) : bool :=
  existsb (fun word => contains word query) words.

(** Index normalisation of a slice bound for a sequence of length [n]. *)
Definition slice_index (n i : Z) : Z :=
  if (i <? 0)%Z then Z.max 0 (n + i) else Z.min i n.

(** [l[start:stop]]; [None] stands for an omitted bound. *)
Definition py_slice {A} (l : list A) (start stop : option Z) : list A :=
  let n := Z.of_nat (length l) in
  let a := match start with None => 0%Z | Some i => slice_index n i end in
  let b := match stop with None => n | Some i => slice_index n i end in
  take (Z.to_nat (b - a)) (drop (Z.to_nat a) l).

(** [range(start, stop, step)]; a zero step is a [ValueError]. *)
Definition py_range (start stop step : Z) : Exn + list Z :=
  if (step =? 0)%Z then inl (MkExn "range() arg 3 must not be zero")
  else
    let len :=
      (if 0 <? step then (stop - start + step - 1) / step
       else (start - stop - step - 1) / (- step))%Z in
    inr (map (fun i => start + step * Z.of_nat i)%Z (seq 0 (Z.to_nat len))).

(** [str.lower] on the ASCII letters; every other byte is kept. *)
Definition ascii_lower_char (c : ascii) : ascii :=
  let n := nat_of_ascii c in
  if (65 <=? n)%nat && (n <=? 90)%nat then ascii_of_nat (n + 32) else c.

Fixpoint ascii_lower (s : string) : string :=
  match s with
  | EmptyString => EmptyString
  | String c rest => String (ascii_lower_char c) (ascii_lower rest)
  end.





(** [str(v)], as an f-string renders a value; the shortest round-trip
    representation of a float is left to [float_repr]. *)
Definition py_str (float_repr : float -> string) (v : PyVal) : string :=
  match v with
  | PyNone => "None"
  | PyInt z => pretty z
  | PyFloat f => float_repr f
  | PyStr s => s
  end.

(** The line feed. *)
Definition nl : string := String (ascii_of_nat 10) EmptyString.

End Py.
Import Py.


(** ** The screening engine ([Nlp_stock.py])

    The methods of [NLPStockScreener] as functions of the fields they use.
    The database and the model are outside the program: their answers are
    parameters of [Section Engine], and every call to them is recorded in
    the trace of the computation, next to the console output. *)

Module Screener.

(** *** Literals of the class *)

Definition system_prompt : string :=
  "
You are a friendly stock market expert. You help users find good stocks to invest in.

Your database contains Indian stocks with these details:
- symbol, name, sector, industry
- market_cap, pe_ratio, pb_ratio, roe
- debt_to_equity, current_ratio, revenue_growth
- net_profit_margin, dividend_yield, price, volume

Be conversational, friendly, and give specific stock recommendations with reasons.
".

Definition sql_value : string :=
  "
            SELECT * FROM stocks 
            WHERE pe_ratio < 15 AND pb_ratio < 2 AND roe > 10 
            ORDER BY pe_ratio ASC 
            LIMIT 15
            ".

Definition sql_growth : string :=
  "
            SELECT * FROM stocks 
            WHERE revenue_growth > 15 AND roe > 20 
            ORDER BY revenue_growth DESC 
            LIMIT 15
            ".

Definition sql_dividend : string :=
  "
            SELECT * FROM stocks 
            WHERE dividend_yield > 2 
            ORDER BY dividend_yield DESC 
            LIMIT 15
            ".

Definition sql_safe : string :=
  "
            SELECT * FROM stocks 
            WHERE debt_to_equity < 0.5 AND current_ratio > 1.5 AND roe > 10 
            ORDER BY debt_to_equity ASC 
            LIMIT 15
            ".

Definition sql_large_cap : string :=
  "
            SELECT * FROM stocks 
            WHERE market_cap > 50000 
            ORDER BY market_cap DESC 
            LIMIT 15
            ".

Definition sql_default : string :=
  "
            SELECT * FROM stocks 
            WHERE roe > 15 AND pe_ratio < 30 AND debt_to_equity < 1 
            ORDER BY roe DESC 
            LIMIT 15
            ".

(** *** State and environment *)

(** One entry of [conversation_history]: [{'user': ..., 'assistant': ...}]. *)
Record Turn : Type := MkTurn { user : string; assistant : string }.

(** The fields of [NLPStockScreener] that the methods read or write; a
    stock is the dictionary [dict(zip(columns, row))] of one result row. *)
Record State : Type := MkState {
  db_path : string;
  conversation_history : list Turn;
  current_stocks : list (gmap string PyVal)
}.

(** What a method does to the outside: text written to the console, the
    calls made to [sqlite3] and to the model, the typing effect. *)
Inductive Event : Type :=
  | EvPrint (text : string)
  | EvConnect (path : string)
  | EvExecute (sql : string)
  | EvGenerate (prompt : string)
  | EvTyping (text : string).

(** The events that touch the database. *)
Definition is_db_event (e : Event) : bool :=
  match e with
  | EvConnect _ | EvExecute _ => true
  | _ => false
  end.


(** The prompts sent to the model, oldest first. *)
Definition sent_prompts (trace : list Event) : list string :=
  omap (fun e => match e with EvGenerate prompt => Some prompt | _ => None end)
    trace.

(** The statements executed on the database, oldest first. *)
Definition executed_sql (trace : list Event) : list string :=
  omap (fun e => match e with EvExecute sql => Some sql | _ => None end) trace.

(** A computation with its trace of events, oldest first. *)
Definition IO (A : Type) : Type := A * list Event.

Definition ret {A} (a : A) : IO A := (a, []).
Definition bind {A B} (m : IO A) (k : A -> IO B) : IO B :=
  let (a, t1) := m in let (b, t2) := k a in (b, t1 ++ t2).
Definition emit (e : Event) : IO unit := (tt, [e]).

Notation "x <- m ;; k" := (bind m (fun x => k))
  (at level 100, m at next level, right associativity).
Notation "m ;;; k" := (bind m (fun _ => k))
  (at level 100, right associativity).

(** [[(start, l[0]), (start + 1, l[1]), ...]] *)
Fixpoint enumerate {A} (l : list A) (start : Z) : list (Z * A) :=
  match l with
  | [] => []
  | x :: rest => (start, x) :: enumerate rest (start + 1)
  end.

Section Engine.

(** [str.lower], Unicode-aware in Python; [Py.ascii_lower] is its
    restriction to ASCII text. *)
Variable lower : string -> string.
(** [repr] of a float. *)
Variable float_repr : float -> string.
(** [sqlite3.connect(path)] *)
Variable sqlite_connect : string -> Exn + unit.
(** [cursor.execute(sql)] followed by [cursor.description] and
    [cursor.fetchall()]: the column names and the rows, or the error
    raised on the way. *)
Variable sqlite_select : string -> Exn + (list string * list (list PyVal)).
(** [client.models.generate_content(...)] and [response.text] *)
Variable generate_content : string -> Exn + string.

(** *** [create_sql_query] *)

Definition create_sql_query (user_query : string) : string :=
  let query := lower user_query in
  if any_in ["value"; "cheap"; "undervalued"] query then sql_value
  else if any_in ["growth"; "growing"; "high growth"] query then sql_growth
  else if any_in ["dividend"; "income"; "yield"] query then sql_dividend
  else if any_in ["safe"; "stable"; "low risk"] query then sql_safe
  else if any_in ["large cap"; "big"; "large"] query then sql_large_cap
  else sql_default.

(** *** [search_stocks] *)

(** The body of the [try] block: [inl e] when a call raised [e]. *)
Definition search_stocks_try (self : State) (user_query : string)
  : IO (Exn + list (gmap string PyVal)) :=
  emit (EvConnect (db_path self)) ;;;
  match sqlite_connect (db_path self) with
  | inl e => ret (inl e)
  | inr _ =>
      let sql_query := create_sql_query user_query in
      emit (EvExecute sql_query) ;;;
      match sqlite_select sql_query with
      | inl e => ret (inl e)
      | inr (columns, rows) =>
          ret (inr (map (fun row => py_dict (zip columns row)) rows))
      end
  end.

Definition search_stocks (self : State) (user_query : string)
  : IO (list (gmap string PyVal)) :=
  r <- search_stocks_try self user_query ;;
  match r with
  | inr results => ret results
  | inl e =>
      emit (EvPrint ("Database error: " +:+ exn_str e +:+ nl)) ;;;
      ret []
  end.

(** *** [create_ai_prompt] *)

Definition stock_field (stock : gmap string PyVal) (key : string) : string :=
  py_str float_repr (dict_get_or stock key (PyStr "N/A")).

(** One pass of the loop over [conversation_history[-4:]]. *)
Definition add_turn (prompt : string) (msg : Turn) : string :=
  let prompt := prompt +:+ ("User: " +:+ user msg +:+ nl) in
  prompt +:+ ("You: " +:+ assistant msg +:+ nl +:+ nl).

(** One pass of the loop over [enumerate(stock_data[:8], 1)]. *)
Definition add_stock (prompt : string) (entry : Z * gmap string PyVal) : string :=
  let (i, stock) := entry in
  let prompt := prompt +:+ (pretty i +:+ ". " +:+ stock_field stock "name"
                  +:+ " (" +:+ stock_field stock "symbol" +:+ ")" +:+ nl) in
  let prompt := prompt +:+ ("   Sector: " +:+ stock_field stock "sector" +:+ nl) in
  let prompt := prompt +:+ ("   PE Ratio: " +:+ stock_field stock "pe_ratio" +:+ nl) in
  let prompt := prompt +:+ ("   ROE: " +:+ stock_field stock "roe" +:+ "%" +:+ nl) in
  prompt +:+ ("   Market Cap: ₹" +:+ stock_field stock "market_cap"
              +:+ " crores" +:+ nl +:+ nl).

Definition create_ai_prompt (self : State) (user_message : string)
    (stock_data : list (gmap string PyVal)) : string :=
  let prompt := system_prompt +:+ nl +:+ nl in
  let prompt :=
    match conversation_history self with
    | [] => prompt
    | _ :: _ =>
        fold_left add_turn
          (py_slice (conversation_history self) (Some (-4)%Z) None)
          (prompt +:+ "Previous conversation:" +:+ nl)
    end in
  let prompt :=
    match stock_data with
    | [] => prompt
    | _ :: _ =>
        fold_left add_stock
          (enumerate (py_slice stock_data None (Some 8%Z)) 1)
          (prompt +:+ "Here are the stocks I found in the database:" +:+ nl)
    end in
  let prompt := prompt +:+ ("User's current question: " +:+ user_message +:+ nl +:+ nl) in
  prompt +:+ "Please respond conversationally and recommend specific stocks with reasons.".

(** *** [get_ai_response] *)

Definition get_ai_response (prompt : string) : IO string :=
  emit (EvGenerate prompt) ;;;
  match generate_content prompt with
  | inr text => ret text
  | inl e => ret ("Sorry, I encountered an error: " +:+ exn_str e)
  end.

(** The string [get_ai_response] returns, without the trace. *)
Definition ai_text (prompt : string) : string :=
  (get_ai_response prompt).1.

(** *** [simulate_typing]

    The word-by-word rendering of [text] on the console, recorded by its
    argument: the method returns nothing and touches no field. *)
Definition simulate_typing (text : string) : IO unit :=
  emit (EvTyping text).

(** *** [process_user_message] *)

Definition trigger_keywords : list string :=
  ["find"; "show"; "recommend"; "suggest"; "good"; "best"; "stocks";
   "companies"; "investment"; "buy"; "portfolio"].

Definition process_user_message (self : State) (user_message : string)
  : IO (string * State) :=
  let needs_stock_data := any_in trigger_keywords (lower user_message) in
  found <-
    (if needs_stock_data then
       emit (EvPrint " Searching database for stocks...") ;;;
       stock_data <- search_stocks self user_message ;;
       emit (EvPrint (" Found " +:+ pretty (length stock_data) +:+ " stocks" +:+ nl)) ;;;
       ret (stock_data,
            MkState (db_path self) (conversation_history self) stock_data)
     else ret ([], self)) ;;
  let (stock_data, self) := found : list (gmap string PyVal) * State in
  let prompt := create_ai_prompt self user_message stock_data in
  emit (EvPrint (nl +:+ " AI Assistant: ")) ;;;
  response <- get_ai_response prompt ;;
  simulate_typing response ;;;
  ret (response,
       MkState (db_path self)
         (conversation_history self ++ [MkTurn user_message response])
         (current_stocks self)).

(** The local [stock_data] of [process_user_message] at the time it calls
    [create_ai_prompt]. *)
Definition looked_up (self : State) (user_message : string)
  : list (gmap string PyVal) :=
  if any_in trigger_keywords (lower user_message)
  then (search_stocks self user_message).1
  else [].

(** [clear_conversation] *)
Definition clear_conversation (self : State) : IO State :=
  emit (EvPrint ("✅ Conversation cleared" +:+ nl)) ;;;
  ret (MkState (db_path self) [] []).

(** *** [show_current_stocks] *)

(** A [for] loop without [break]. *)
Fixpoint for_io {A} (items : list A) (body : A -> IO unit) : IO unit :=
  match items with
  | [] => ret tt
  | x :: rest => body x ;;; for_io rest body
  end.

Definition show_current_stocks (self : State) : IO unit :=
  match current_stocks self with
  | [] => emit (EvPrint ("No stocks currently loaded" +:+ nl))
  | _ :: _ =>
      emit (EvPrint (nl +:+ "📊 Current stocks ("
                     +:+ pretty (length (current_stocks self)) +:+ "):" +:+ nl)) ;;;
      for_io (enumerate (py_slice (current_stocks self) None (Some 10%Z)) 1)
        (fun entry =>
           let (i, stock) := entry : Z * gmap string PyVal in
           emit (EvPrint (pretty i +:+ ". " +:+ stock_field stock "name"
                          +:+ " (" +:+ stock_field stock "symbol" +:+ ")" +:+ nl))) ;;;
      if (10 <? Z.of_nat (length (current_stocks self)))%Z then
        emit (EvPrint ("... and "
                       +:+ pretty (Z.of_nat (length (current_stocks self)) - 10)%Z
                       +:+ " more" +:+ nl))
      else ret tt
  end.

(** *** [__init__] and [main] *)

(** The fields after [__init__]. *)
Definition init (db_path : string) : State := MkState db_path [] [].

(** [str.strip] *)
Variable strip : string -> string.

(** What [input] gives to one pass of the loop of [main]: a line, a
    [KeyboardInterrupt], or another error, such as [EOFError]. *)
Inductive Input : Type :=
  | Typed (line : string)
  | Interrupted
  | InputFailed (e : Exn).

(** Whether the [while] loop takes another pass. *)
Inductive Loop : Type := Continue | Stop.

(** [x in words] for a list of strings. *)
Definition str_in (x : string) (words : list string) : bool :=
  existsb (String.eqb x) words.

(** One pass of the [while True] loop of [main]. *)
Definition main_step (self : State) (input : Input) : IO (Loop * State) :=
  emit (EvPrint (nl +:+ "🔵 You: ")) ;;;
  match input with
  | Interrupted =>
      emit (EvPrint (nl +:+ nl +:+ "👋 Goodbye!" +:+ nl)) ;;;
      ret (Stop, self)
  | InputFailed e =>
      emit (EvPrint (nl +:+ "❌ Error: " +:+ exn_str e +:+ nl)) ;;;
      ret (Continue, self)
  | Typed line =>
      let user_input := strip line in
      match user_input with
      | EmptyString => ret (Continue, self)
      | String _ _ =>
          if str_in (lower user_input) ["/quit"; "/exit"; "bye"] then
            emit (EvPrint (nl +:+ "👋 Thanks for using the stock screener!" +:+ nl)) ;;;
            ret (Stop, self)
          else if String.eqb (lower user_input) "/clear" then
            self <- clear_conversation self ;;
            ret (Continue, self)
          else if String.eqb (lower user_input) "/stocks" then
            show_current_stocks self ;;;
            ret (Continue, self)
          else
            r <- process_user_message self user_input ;;
            ret (Continue, r.2)
      end
  end.

(** The loop of [main] on the inputs it is given; [Continue] when they
    run out before the loop has ended. *)
Fixpoint main_loop (inputs : list Input) (self : State) : IO (Loop * State) :=
  match inputs with
  | [] => ret (Continue, self)
  | input :: rest =>
      r <- main_step self input ;;
      match r with
      | (Stop, self) => ret (Stop, self)
      | (Continue, self) => main_loop rest self
      end
  end.

(** [main], with the path of the database as a parameter. *)
Definition main (path : string) (inputs : list Input) : IO (Loop * State) :=
  let screener := init path in
  emit (EvPrint ("🚀 Simple Stock Screener" +:+ nl)) ;;;
  emit (EvPrint ("💬 Ask me about Indian stocks! I can help you find good investments."
                 +:+ nl)) ;;;
  emit (EvPrint ("📋 Commands: /clear, /stocks, /quit" +:+ nl)) ;;;
  emit (EvPrint (str_repeat "-" 50 +:+ nl)) ;;;
  main_loop inputs screener.

End Engine.

End Screener.

(** ** The fundamentals loader ([scraper.py])

    The calls to [logger] write to the log and change nothing else; they
    are left out.  [get_stock_summary] only prints and is not modelled. *)

Module Scraper.

(** The symbol universe of [get_nse_top_stocks]. *)
Definition nse_stocks : list string :=
  [ "RELIANCE.NS"; "TCS.NS"; "HDFCBANK.NS"; "ICICIBANK.NS"; "INFY.NS";
    "ITC.NS"; "LT.NS"; "AXISBANK.NS"; "KOTAKBANK.NS"; "SBIN.NS";
    "BHARTIARTL.NS"; "HINDUNILVR.NS"; "BAJFINANCE.NS"; "ASIANPAINT.NS"; "HCLTECH.NS";
    "SUNPHARMA.NS"; "ULTRACEMCO.NS"; "MARUTI.NS"; "TITAN.NS"; "WIPRO.NS";
    "NTPC.NS"; "POWERGRID.NS"; "JSWSTEEL.NS"; "ONGC.NS"; "TATASTEEL.NS";
    "HDFCLIFE.NS"; "SBILIFE.NS"; "BAJAJFINSV.NS"; "ADANIENT.NS"; "COALINDIA.NS";
    "ADANIPORTS.NS"; "TECHM.NS"; "IOC.NS"; "GRASIM.NS"; "BPCL.NS";
    "DIVISLAB.NS"; "CIPLA.NS"; "DRREDDY.NS"; "NESTLEIND.NS"; "EICHERMOT.NS";
    "HEROMOTOCO.NS"; "BAJAJ-AUTO.NS"; "HINDALCO.NS"; "BRITANNIA.NS"; "SHREECEM.NS";
    "TATACONSUM.NS"; "GAIL.NS"; "UPL.NS"; "INDUSINDBK.NS"; "DABUR.NS";
    "PIDILITIND.NS"; "M&M.NS"; "ADANIGREEN.NS"; "ADANITRANS.NS"; "BEL.NS";
    "CHOLAFIN.NS"; "PNB.NS"; "BANKBARODA.NS"; "CANBK.NS"; "INDIANB.NS";
    "BANDHANBNK.NS"; "FEDERALBNK.NS"; "IDFCFIRSTB.NS"; "AUBANK.NS"; "YESBANK.NS";
    "LICHSGFIN.NS"; "IBULHSGFIN.NS"; "BAJAJHLDNG.NS"; "TATAMOTORS.NS"; "TVSMOTOR.NS";
    "ESCORTS.NS"; "ASHOKLEY.NS"; "MOTHERSUMI.NS"; "BOSCHLTD.NS"; "BALKRISIND.NS";
    "AMARAJABAT.NS"; "EXIDEIND.NS"; "MARICO.NS"; "COLPAL.NS"; "GODREJCP.NS";
    "EMAMILTD.NS"; "UBL.NS"; "MCDOWELL-N.NS"; "VBL.NS"; "RADICO.NS";
    "TATACHEM.NS"; "RAMCOCEM.NS"; "JKCEMENT.NS"; "HEIDELBERG.NS"; "DALBHARAT.NS";
    "INDIGO.NS"; "IRCTC.NS"; "INTERGLOBE.NS"; "CONCOR.NS"; "ADANILOG.NS";
    "IRFC.NS"; "RVNL.NS"; "BHEL.NS"; "L&TFH.NS"; "RECLTD.NS";
    "PFC.NS"; "NHPC.NS"; "NTPC.NS"; "SJVN.NS"; "TATAPOWER.NS";
    "JSWENERGY.NS"; "NHNL.NS"; "POLYCAB.NS"; "FINCABLES.NS"; "KEI.NS";
    "HAVELLS.NS"; "VGUARD.NS"; "CESC.NS"; "TORNTPOWER.NS"; "KANSAINER.NS";
    "BERGEPAINT.NS"; "INDIGOPNTS.NS"; "SOBHA.NS"; "GODREJPROP.NS"; "OBEROIRLTY.NS";
    "PRESTIGE.NS"; "LODHA.NS"; "PHOENIXLTD.NS"; "TRENT.NS"; "DMART.NS";
    "METROPOLIS.NS"; "DRL.NS"; "APOLLOHOSP.NS"; "NARAYANA.NS"; "FORTIS.NS";
    "LALPATHLAB.NS"; "GLAND.NS"; "BIOCON.NS"; "AUROPHARMA.NS"; "ALKEM.NS";
    "GLENMARK.NS"; "TORNTPHARM.NS"; "PFIZER.NS"; "ABBOTINDIA.NS"; "SANOFI.NS";
    "ZYDUSLIFE.NS"; "IPCALAB.NS"; "JUBLFOOD.NS"; "ZOMATO.NS"; "DELHIVERY.NS";
    "PAYTM.NS"; "POLYMED.NS"; "NAVINFLUOR.NS"; "PIIND.NS"; "SRF.NS";
    "DEEPAKNTR.NS"; "AARTIIND.NS"; "FINEORG.NS"; "TATVA.NS"; "ATUL.NS";
    "BALAMINES.NS"; "PERSISTENT.NS"; "MPHASIS.NS"; "LTI.NS"; "LTTS.NS";
    "COFORGE.NS"; "TATAELXSI.NS"; "AFFLE.NS"; "HAPPSTMNDS.NS"; "ROUTE.NS" ].

Definition get_nse_top_stocks (count : Z) : list string :=
  py_slice nse_stocks None (Some count).

(** *** Data *)

(** The dictionary built by [fetch_stock_data_yfinance]: always these
    fifteen keys, [symbol] being the string that was asked for. *)
Record StockData : Type := MkStockData {
  symbol : string;
  name : PyVal;
  sector : PyVal;
  industry : PyVal;
  market_cap : PyVal;
  pe_ratio : PyVal;
  pb_ratio : PyVal;
  roe : PyVal;
  debt_to_equity : PyVal;
  current_ratio : PyVal;
  revenue_growth : PyVal;
  net_profit_margin : PyVal;
  dividend_yield : PyVal;
  price : PyVal;
  volume : PyVal
}.

Definition set_roe (v : PyVal) (d : StockData) : StockData :=
  MkStockData (symbol d) (name d) (sector d) (industry d) (market_cap d)
    (pe_ratio d) (pb_ratio d) v (debt_to_equity d) (current_ratio d)
    (revenue_growth d) (net_profit_margin d) (dividend_yield d) (price d)
    (volume d).
Definition set_revenue_growth (v : PyVal) (d : StockData) : StockData :=
  MkStockData (symbol d) (name d) (sector d) (industry d) (market_cap d)
    (pe_ratio d) (pb_ratio d) (roe d) (debt_to_equity d) (current_ratio d)
    v (net_profit_margin d) (dividend_yield d) (price d) (volume d).
Definition set_net_profit_margin (v : PyVal) (d : StockData) : StockData :=
  MkStockData (symbol d) (name d) (sector d) (industry d) (market_cap d)
    (pe_ratio d) (pb_ratio d) (roe d) (debt_to_equity d) (current_ratio d)
    (revenue_growth d) v (dividend_yield d) (price d) (volume d).
Definition set_dividend_yield (v : PyVal) (d : StockData) : StockData :=
  MkStockData (symbol d) (name d) (sector d) (industry d) (market_cap d)
    (pe_ratio d) (pb_ratio d) (roe d) (debt_to_equity d) (current_ratio d)
    (revenue_growth d) (net_profit_margin d) v (price d) (volume d).

(** A row of table [stocks]: [id INTEGER PRIMARY KEY AUTOINCREMENT], the
    fifteen columns written by the loader ([symbol TEXT UNIQUE NOT NULL]
    among them) and [last_updated], which defaults to CURRENT_TIMESTAMP.
    A column holds the value that was bound to it; the coercion of column
    affinity is not modelled. *)
Record Row : Type := MkRow {
  row_id : Z;
  row_data : StockData;
  last_updated : string
}.

(** How a call of [save_to_database] can fail on the side of SQLite:
    [sqlite3.connect] raises (outside the [try]), or [execute] / [commit]
    raises (inside it). *)
Inductive SaveFault : Type :=
  | ConnectError (e : Exn)
  | ExecuteError (e : Exn).

(** The world the loader runs in: the table and its AUTOINCREMENT counter,
    the number of provider requests and of database sessions so far, and
    the arguments of the calls to [time.sleep], oldest first. *)
Record World : Type := MkWorld {
  stocks_table : list Row;
  sqlite_sequence : Z;
  requests : nat;
  sessions : nat;
  slept : list Z
}.

(** [successful] and [failed] of [scrape_all_stocks]. *)
Record Counts : Type := MkCounts { successful : Z; failed : Z }.

(** *** A state and exception monad *)

Definition M (A : Type) : Type := World -> (Exn + A) * World.

Definition ret {A} (a : A) : M A := fun w => (inr a, w).
Definition raise {A} (e : Exn) : M A := fun w => (inl e, w).
Definition bind {A B} (m : M A) (k : A -> M B) : M B :=
  fun w => match m w with
           | (inr a, w') => k a w'
           | (inl e, w') => (inl e, w')
           end.
(** [try: m  except Exception as e: h e] *)
Definition try_except {A} (m : M A) (h : Exn -> M A) : M A :=
  fun w => match m w with
           | (inr a, w') => (inr a, w')
           | (inl e, w') => h e w'
           end.
Definition lift {A} (r : Exn + A) : M A :=
  match r with inl e => raise e | inr a => ret a end.

Notation "x <- m ;; k" := (bind m (fun x => k))
  (at level 100, m at next level, right associativity).
Notation "m ;;; k" := (bind m (fun _ => k))
  (at level 100, right associativity).

(** A [for] loop whose body may [break]. *)
Inductive Flow : Type := Next | Break.

Fixpoint for_each {A S} (items : list A) (body : A -> S -> M (Flow * S)) (s : S)
  : M S :=
  match items with
  | [] => ret s
  | x :: rest =>
      r <- body x s ;;
      match r with
      | (Break, s') => ret s'
      | (Next, s') => for_each rest body s'
      end
  end.

(** [time.sleep(seconds)]; a negative argument is a [ValueError]. *)
Definition sleep (seconds : Z) : M unit :=
  fun w =>
    if (seconds <? 0)%Z then
      (inl (MkExn "sleep length must be non-negative"), w)
    else
      (inr tt, MkWorld (stocks_table w) (sqlite_sequence w) (requests w)
                 (sessions w) (slept w ++ [seconds])).

Section Loader.

(** [yf.Ticker(symbol).info] as answered to the request numbered
    [requests w]: the dictionary, or the error raised. *)
Variable ticker_info : nat -> string -> Exn + gmap string PyVal.
(** The fault, if any, met by the database session numbered [sessions w]. *)
Variable save_fault : nat -> option SaveFault.
(** CURRENT_TIMESTAMP during that session. *)
Variable current_timestamp : nat -> string.

Definition request_info (symbol : string) : M (gmap string PyVal) :=
  fun w =>
    (ticker_info (requests w) symbol,
     MkWorld (stocks_table w) (sqlite_sequence w) (S (requests w))
       (sessions w) (slept w)).

(** *** [fetch_stock_data_yfinance] *)

(** [if stock_data[k]: stock_data[k] *= 100], with [get] and [set] the
    accessors of key [k]. *)
Definition to_percent (get : StockData -> PyVal)
    (set : PyVal -> StockData -> StockData) (stock_data : StockData)
  : M StockData :=
  if truthy (get stock_data) then
    v <- lift (py_mul100 (get stock_data)) ;;
    ret (set v stock_data)
  else ret stock_data.

Definition fetch_stock_data_yfinance (symbol : string) : M (option StockData) :=
  try_except
    (info <- request_info symbol ;;
     let stock_data := {|
       symbol := symbol;
       name := dict_get_or info "longName" (PyStr EmptyString);
       sector := dict_get_or info "sector" (PyStr EmptyString);
       industry := dict_get_or info "industry" (PyStr EmptyString);
       market_cap := dict_get info "marketCap";
       pe_ratio := py_or (dict_get info "forwardPE") (dict_get info "trailingPE");
       pb_ratio := dict_get info "priceToBook";
       roe := dict_get info "returnOnEquity";
       debt_to_equity := dict_get info "debtToEquity";
       current_ratio := dict_get info "currentRatio";
       revenue_growth := dict_get info "revenueGrowth";
       net_profit_margin := dict_get info "profitMargins";
       dividend_yield := dict_get info "dividendYield";
       price := py_or (dict_get info "currentPrice")
                      (dict_get info "regularMarketPrice");
       volume := dict_get info "volume"
     |} in
     stock_data <- to_percent roe set_roe stock_data ;;
     stock_data <- to_percent revenue_growth set_revenue_growth stock_data ;;
     stock_data <- to_percent net_profit_margin set_net_profit_margin stock_data ;;
     stock_data <- to_percent dividend_yield set_dividend_yield stock_data ;;
     ret (Some stock_data))
    (fun e => ret None).

(** *** [save_to_database] *)

(** The tuple of parameters bound to the statement. *)
Definition parameters (d : StockData) : list PyVal :=
  [PyStr (symbol d); name d; sector d; industry d; market_cap d; pe_ratio d;
   pb_ratio d; roe d; debt_to_equity d; current_ratio d; revenue_growth d;
   net_profit_margin d; dividend_yield d; price d; volume d].

(** [sqlite3] binds an [int] only within the signed 64-bit range and
    raises [OverflowError] otherwise. *)
Definition bindable (v : PyVal) : bool :=
  match v with
  | PyInt z => (- 2 ^ 63 <=? z)%Z && (z <? 2 ^ 63)%Z
  | _ => true
  end.

(** INSERT OR REPLACE INTO stocks (symbol, ...) VALUES (?, ...): the row
    that holds the same [symbol] is deleted, the new row gets the next
    AUTOINCREMENT id and the default [last_updated]. *)
Definition insert_or_replace (d : StockData) (now : string) (w : World) : World :=
  let kept := filter (fun r => symbol (row_data r) ≠ symbol d) (stocks_table w) in
  let new_id := (foldr Z.max (sqlite_sequence w) (map row_id (stocks_table w)) + 1)%Z in
  MkWorld (kept ++ [MkRow new_id d now]) new_id (requests w) (sessions w)
    (slept w).

(** Opening the session: [sqlite3.connect(self.db_path)], before the [try]. *)
Definition open_session : M (option Exn * string) :=
  fun w =>
    let w' := MkWorld (stocks_table w) (sqlite_sequence w) (requests w)
                (S (sessions w)) (slept w) in
    match save_fault (sessions w) with
    | Some (ConnectError e) => (inl e, w')
    | Some (ExecuteError e) => (inr (Some e, current_timestamp (sessions w)), w')
    | None => (inr (None, current_timestamp (sessions w)), w')
    end.

Definition save_to_database (stock_data : option StockData) : M bool :=
  match stock_data with
  | None => ret false
  | Some d =>
      conn <- open_session ;;
      let (fault, now) := conn : option Exn * string in
      try_except
        (match fault with
         | Some e => raise e
         | None =>
             if forallb bindable (parameters d) then
               (fun w => (inr tt, insert_or_replace d now w)) ;;;
               ret true
             else raise (MkExn "Python int too large to convert to SQLite INTEGER")
         end)
        (fun e => ret false)
  end.

(** *** [scrape_all_stocks] *)

Definition max_retries : Z := 3.

(** One pass of [for attempt in range(max_retries)]. *)
Definition attempt_once (symbol : string) (delay : Z) (attempt : Z) (c : Counts)
  : M (Flow * Counts) :=
  try_except
    (stock_data <- fetch_stock_data_yfinance symbol ;;
     saved <- (match stock_data with
               | None => ret false
               | Some d => save_to_database (Some d)
               end) ;;
     if saved : bool then
       ret (Break, MkCounts (successful c + 1) (failed c))
     else if (attempt =? max_retries - 1)%Z then
       ret (Next, MkCounts (successful c) (failed c + 1))
     else ret (Next, c))
    (fun e =>
       if (attempt <? max_retries - 1)%Z then
         sleep (delay * 2) ;;; ret (Next, c)
       else ret (Next, MkCounts (successful c) (failed c + 1))).

(** One pass of [for i, symbol in enumerate(batch)]. *)
Definition process_symbol (delay : Z) (symbol : string) (c : Counts)
  : M (Flow * Counts) :=
  attempts <- lift (py_range 0 max_retries 1) ;;
  c <- for_each attempts (attempt_once symbol delay) c ;;
  sleep delay ;;;
  ret (Next, c).

(** One pass of [for batch_start in range(0, len(stocks), batch_size)]. *)
Definition process_batch (stocks : list string) (batch_size delay : Z)
    (batch_start : Z) (c : Counts) : M (Flow * Counts) :=
  let batch_end := Z.min (batch_start + batch_size) (Z.of_nat (length stocks)) in
  let batch := py_slice stocks (Some batch_start) (Some batch_end) in
  c <- for_each batch (process_symbol delay) c ;;
  (if (batch_end <? Z.of_nat (length stocks))%Z then sleep (delay * 3)
   else ret tt) ;;;
  ret (Next, c).

(** The loops of [scrape_all_stocks] over a given symbol list. *)
Definition scrape_stocks (stocks : list string) (batch_size delay : Z)
  : M (Z * Z) :=
  batch_starts <- lift (py_range 0 (Z.of_nat (length stocks)) batch_size) ;;
  c <- for_each batch_starts (process_batch stocks batch_size delay)
         (MkCounts 0 0) ;;
  ret (successful c, failed c).

Definition scrape_all_stocks (batch_size delay : Z) : M (Z * Z) :=
  scrape_stocks (get_nse_top_stocks 200) batch_size delay.

End Loader.

(** The store right after [setup_database] on a fresh file. *)
Definition fresh_world : World := MkWorld [] 0 0 0 [].

End Scraper.

(** ** The classifier as the specification words it *)

Module ClassifierSpec.

(** The six screening strategies, [Quality] being the default. *)
Inductive Strategy : Type :=
  Value | Growth | Dividend | Safety | LargeCap | Quality.

Definition keywords (g : Strategy) : list string :=
  match g with
  | Value => ["value"; "cheap"; "undervalued"]
  | Growth => ["growth"; "growing"; "high growth"]
  | Dividend => ["dividend"; "income"; "yield"]
  | Safety => ["safe"; "stable"; "low risk"]
  | LargeCap => ["large cap"; "big"; "large"]
  | Quality => []
  end.

Definition template (g : Strategy) : string :=
  match g with
  | Value => Screener.sql_value
  | Growth => Screener.sql_growth
  | Dividend => Screener.sql_dividend
  | Safety => Screener.sql_safe
  | LargeCap => Screener.sql_large_cap
  | Quality => Screener.sql_default
  end.

(** The keyword groups in their priority order. *)
Definition priority : list Strategy := [Value; Growth; Dividend; Safety; LargeCap].

(** The first group, in priority order, one of whose keywords occurs in
    the lower-cased message; [Quality] when there is none. *)
Definition first_match (query : string) : Strategy :=
  default Quality (find (fun g => any_in (keywords g) query) priority).

End ClassifierSpec.

(** ** The prompt as the specification words it *)

Module PromptSpec.

Import Screener.

(** Strings joined end to end. *)
Definition join (parts : list string) : string :=
  foldr String.append EmptyString parts.

(** The two lines of one conversation turn, and the blank line after. *)
Definition turn_lines (t : Turn) : string :=
  "User: " +:+ user t +:+ nl +:+ "You: " +:+ assistant t +:+ nl +:+ nl.

(** The "previous conversation" section for the turns in [window]. *)
Definition history_section (window : list Turn) : string :=
  match window with
  | [] => EmptyString
  | _ :: _ => "Previous conversation:" +:+ nl +:+ join (map turn_lines window)
  end.

(** The five lines of the stock numbered [i], and the blank line after:
    name and symbol, sector, P/E, ROE followed by a percent sign, market
    cap between the rupee sign and the unit. *)
Definition stock_lines (float_repr : float -> string) (i : Z)
    (stock : gmap string PyVal) : string :=
  let field key := py_str float_repr (dict_get_or stock key (PyStr "N/A")) in
  pretty i +:+ ". " +:+ field "name" +:+ " (" +:+ field "symbol" +:+ ")" +:+ nl
  +:+ "   Sector: " +:+ field "sector" +:+ nl
  +:+ "   PE Ratio: " +:+ field "pe_ratio" +:+ nl
  +:+ "   ROE: " +:+ field "roe" +:+ "%" +:+ nl
  +:+ "   Market Cap: ₹" +:+ field "market_cap" +:+ " crores" +:+ nl +:+ nl.

(** The "stocks found" section for the rows in [shown], numbered from 1. *)
Definition stocks_section (float_repr : float -> string)
    (shown : list (gmap string PyVal)) : string :=
  match shown with
  | [] => EmptyString
  | _ :: _ =>
      "Here are the stocks I found in the database:" +:+ nl
      +:+ join (imap (fun i stock => stock_lines float_repr (1 + Z.of_nat i) stock)
                  shown)
  end.

(** The user's question and the closing instruction. *)
Definition question_section (user_message : string) : string :=
  "User's current question: " +:+ user_message +:+ nl +:+ nl
  +:+ "Please respond conversationally and recommend specific stocks with reasons.".

End PromptSpec.

(** ** The loader as the specification words it *)

Module LoaderSpec.

Import Scraper.

(** A number that is exactly zero. *)
Definition is_zero (v : PyVal) : bool :=
  match v with
  | PyInt z => (z =? 0)%Z
  | PyFloat f => PrimFloat.eqb f 0%float
  | _ => false
  end.

(** A provider fraction as it is stored: times 100 when it is truthy,
    unchanged otherwise. *)
Definition percent (v : PyVal) : PyVal :=
  if truthy v then
    match py_mul100 v with
    | inr scaled => scaled
    | inl _ => v
    end
  else v.

(** The world after one more provider request. *)
Definition after_request (w : World) : World :=
  MkWorld (stocks_table w) (sqlite_sequence w) (S (requests w)) (sessions w)
    (slept w).

(** The world after one more database session. *)
Definition after_session (w : World) : World :=
  MkWorld (stocks_table w) (sqlite_sequence w) (requests w) (S (sessions w))
    (slept w).

(** The record [fetch_stock_data_yfinance] builds from the provider's
    dictionary. *)
Definition fundamentals (symbol : string) (info : gmap string PyVal) : StockData :=
  {| symbol := symbol;
     name := dict_get_or info "longName" (PyStr EmptyString);
     sector := dict_get_or info "sector" (PyStr EmptyString);
     industry := dict_get_or info "industry" (PyStr EmptyString);
     market_cap := dict_get info "marketCap";
     pe_ratio := py_or (dict_get info "forwardPE") (dict_get info "trailingPE");
     pb_ratio := dict_get info "priceToBook";
     roe := percent (dict_get info "returnOnEquity");
     debt_to_equity := dict_get info "debtToEquity";
     current_ratio := dict_get info "currentRatio";
     revenue_growth := percent (dict_get info "revenueGrowth");
     net_profit_margin := percent (dict_get info "profitMargins");
     dividend_yield := percent (dict_get info "dividendYield");
     price := py_or (dict_get info "currentPrice")
                    (dict_get info "regularMarketPrice");
     volume := dict_get info "volume" |}.

(** The world after [seconds] more of sleep. *)
Definition after_sleep (seconds : Z) (w : World) : World :=
  MkWorld (stocks_table w) (sqlite_sequence w) (requests w) (sessions w)
    (slept w ++ [seconds]).

(** The rows of the table that hold symbol [s]. *)
Definition rows_of (s : string) (table : list Row) : list Row :=
  filter (fun r => symbol (row_data r) = s) table.

(** The rows of the table that hold another symbol. *)
Definition rows_besides (s : string) (table : list Row) : list Row :=
  filter (fun r => symbol (row_data r) <> s) table.

(** A computation keeps a property of the world, however it ends. *)
Definition preserves {A} (P : World -> Prop) (m : M A) : Prop :=
  forall w, P w -> P (m w).2.

(** The largest id among the rows, or [floor] when that is larger. *)
Definition max_id (floor : Z) (table : list Row) : Z :=
  foldr Z.max floor (map row_id table).

(** The batch that starts at [batch_start]. *)
Definition batch_of (stocks : list string) (batch_size batch_start : Z)
  : list string :=
  py_slice stocks (Some batch_start)
    (Some (Z.min (batch_start + batch_size) (Z.of_nat (length stocks)))).

(** The number of symbols in the batches that start at [starts]. *)
Definition batched (stocks : list string) (batch_size : Z) (starts : list Z)
  : nat :=
  foldr (fun start total => length (batch_of stocks batch_size start) + total)
    0 starts.

(** The [ValueError] of [time.sleep] on a negative argument. *)
Definition sleep_error : Exn := MkExn "sleep length must be non-negative".

(** The record of a symbol about which the provider says nothing. *)
Definition blank (symbol : string) : StockData :=
  MkStockData symbol (PyStr EmptyString) (PyStr EmptyString) (PyStr EmptyString)
    PyNone PyNone PyNone PyNone PyNone PyNone PyNone PyNone PyNone PyNone PyNone.

(** No two rows hold the same symbol. *)
Definition unique_symbols (table : list Row) : Prop :=
  NoDup ((fun r => symbol (row_data r)) <$> table).

End LoaderSpec.

(** ** Sample environments *)

Module Sample.

(** A rendering of floats for rows that hold none. *)
Definition float_repr (f : float) : string := "<float>".

(** A database that opens, and one that is locked. *)
Definition connect_ok (path : string) : Exn + unit := inr tt.
Definition connect_locked (path : string) : Exn + unit :=
  inl (MkExn "database is locked").

Definition columns : list string :=
  ["id"; "symbol"; "name"; "sector"; "pe_ratio"; "roe"; "market_cap"].

(** The row numbered [i] of a result set. *)
Definition row (i : nat) : list PyVal :=
  [PyInt (Z.of_nat i); PyStr ("S" +:+ pretty i); PyStr ("Company " +:+ pretty i);
   PyStr "Energy"; PyInt 12; PyInt (10 + Z.of_nat i); PyNone].

(** A query that answers with fifteen rows, one with none, one that fails. *)
Definition select_15 (sql : string) : Exn + (list string * list (list PyVal)) :=
  inr (columns, map row (seq 1 15)).
Definition select_none (sql : string) : Exn + (list string * list (list PyVal)) :=
  inr (columns, []).
Definition select_broken (sql : string) : Exn + (list string * list (list PyVal)) :=
  inl (MkExn "no such table: stocks").

(** A model that answers, and one that is out of quota. *)
Definition model_ok (prompt : string) : Exn + string := inr "Consider S1.".
Definition model_down (prompt : string) : Exn + string :=
  inl (MkExn "429 quota exceeded").

(** A conversation of six turns, with stocks left from an earlier lookup. *)
Definition six_turns : list Screener.Turn :=
  map (fun i => Screener.MkTurn ("question " +:+ pretty i) ("answer " +:+ pretty i))
    (seq 1 6).

Definition screener : Screener.State :=
  Screener.MkState "stocks.db" six_turns [py_dict [("symbol", PyStr "OLD")]].

(** A provider that is unreachable, and one that answers. *)
Definition offline (request : nat) (symbol : string) : Exn + gmap string PyVal :=
  inl (MkExn "connection refused").

Definition info_a : gmap string PyVal :=
  py_dict [("longName", PyStr "Reliance Industries Limited");
           ("returnOnEquity", PyFloat 0x1.70a3d70a3d70ap-3 (* 0.18 *));
           ("dividendYield", PyInt 0);
           ("forwardPE", PyInt 0);
           ("trailingPE", PyFloat 0x1.9p+4 (* 25.0 *));
           ("currentPrice", PyFloat 0);
           ("regularMarketPrice", PyInt 2900)].

Definition info_b : gmap string PyVal :=
  py_dict [("longName", PyStr "Reliance Industries Ltd");
           ("forwardPE", PyInt 21);
           ("currentPrice", PyInt 2950)].

Definition online (request : nat) (symbol : string) : Exn + gmap string PyVal :=
  inr (if decide (request = 0) then info_a else info_b).

(** A provider that answers with an empty dictionary, and one that
    reports a market cap beyond 64 bits. *)
Definition online_empty (request : nat) (symbol : string)
  : Exn + gmap string PyVal := inr ∅.

Definition info_huge : gmap string PyVal :=
  py_dict [("longName", PyStr "Huge"); ("marketCap", PyInt (2 ^ 63))].

(** A database file that cannot be opened. *)
Definition fault_connect (session : nat) : option Scraper.SaveFault :=
  Some (Scraper.ConnectError (MkExn "unable to open database file")).

(** A screener with twelve stocks from an earlier lookup. *)
Definition screener_12 : Screener.State :=
  Screener.MkState "stocks.db" []
    (map (fun r => py_dict (zip columns r)) (map row (seq 1 12))).

(** A database without faults, and a clock. *)
Definition no_fault (session : nat) : option Scraper.SaveFault := None.
Definition timestamp (session : nat) : string := "t" +:+ pretty session.

End Sample.

(** ** Properties *)

(** *** Strings *)

Lemma append_cons (a : ascii) (s t : string) :
  String a s +:+ t = String a (s +:+ t).
Proof. reflexivity. Qed.

Lemma append_nil (t : string) : EmptyString +:+ t = t.
Proof. reflexivity. Qed.

Lemma prefix_iff (p s : string) :
  String.prefix p s = true <-> exists rest, s = p +:+ rest.
Proof.
  revert s. induction p as [|a p IH]; intros s; simpl.
  - split; [intros _; by exists s | by destruct s].
  - destruct s as [|b s]; simpl.
    + split; [discriminate | intros [rest H]; discriminate].
    + destruct (ascii_dec a b) as [->|Hne].
      * rewrite IH. split; intros [rest H]; exists rest;
          rewrite append_cons in *; congruence.
      * split; [discriminate | intros [rest H]].
        rewrite append_cons in H. congruence.
Qed.

Lemma contains_nil (needle : string) :
  contains needle EmptyString = String.prefix needle EmptyString.
Proof. unfold contains. apply orb_false_r. Qed.

Lemma contains_cons (needle : string) (c : ascii) (hay : string) :
  contains needle (String c hay) =
  String.prefix needle (String c hay) || contains needle hay.
Proof. reflexivity. Qed.

(** [contains] is substring containment. *)
Lemma contains_iff (needle hay : string) :
  contains needle hay = true <->
  exists before after, hay = before +:+ needle +:+ after.
Proof.
  induction hay as [|c hay IH].
  - rewrite contains_nil, prefix_iff. split.
    + intros [rest H]. by exists EmptyString, rest.
    + intros [[|b before] [after H]]; [by exists after | discriminate].
  - rewrite contains_cons, orb_true_iff, prefix_iff, IH. split.
    + intros [[rest H]|(before & after & H)].
      * by exists EmptyString, rest.
      * exists (String c before), after. by rewrite append_cons, H.
    + intros [[|b before] [after H]].
      * left. by exists after.
      * right. exists before, after. rewrite append_cons in H. congruence.
Qed.

Lemma any_in_iff (words : list string) (query : string) :
  any_in words query = true <->
  exists word, In word words /\ contains word query = true.
Proof. unfold any_in. apply existsb_exists. Qed.

(** *** Lists *)

Lemma find_first {A} (f : A -> bool) (pre : list A) (x : A) (post : list A) :
  f x = true -> (forall y, In y pre -> f y = false) ->
  find f (pre ++ x :: post) = Some x.
Proof.
  intros Hx Hpre. induction pre as [|y pre IH]; simpl.
  - by rewrite Hx.
  - rewrite (Hpre y) by (by left). apply IH. intros z Hz. apply Hpre. by right.
Qed.

Lemma find_none {A} (f : A -> bool) (l : list A) :
  (forall y, In y l -> f y = false) -> find f l = None.
Proof.
  induction l as [|y l IH]; intros H; simpl; [done|].
  rewrite (H y) by (by left). apply IH. intros z Hz. apply H. by right.
Qed.

Lemma append_assoc (a b c : string) : (a +:+ b) +:+ c = a +:+ b +:+ c.
Proof.
  induction a as [|x a IH]; [reflexivity|].
  by rewrite !append_cons, IH.
Qed.

Lemma append_nil_r (a : string) : a +:+ EmptyString = a.
Proof.
  induction a as [|x a IH]; [reflexivity|]. by rewrite append_cons, IH.
Qed.

(** *** Slices *)

(** [l[-k:]] keeps the last [k] items, all of them when there are fewer. *)
Lemma py_slice_last {A} (l : list A) (k : nat) :
  0 < k ->
  py_slice l (Some (- Z.of_nat k)%Z) None = drop (length l - k) l.
Proof.
  intros Hk. unfold py_slice, slice_index.
  destruct (Z.ltb_spec (- Z.of_nat k) 0) as [_|?]; [|lia].
  replace (Z.to_nat (Z.max 0 (Z.of_nat (length l) + - Z.of_nat k)))
    with (length l - k) by lia.
  apply take_ge. rewrite length_drop. lia.
Qed.

(** [l[:k]] keeps the first [k] items, all of them when there are fewer. *)
Lemma py_slice_first {A} (l : list A) (k : nat) :
  py_slice l None (Some (Z.of_nat k)) = take k l.
Proof.
  unfold py_slice, slice_index.
  destruct (Z.ltb_spec (Z.of_nat k) 0) as [?|_]; [lia|].
  rewrite drop_0.
  destruct (decide (k <= length l)) as [Hle|Hgt].
  - f_equal. lia.
  - rewrite !take_ge by lia. reflexivity.
Qed.

(** *** The query classifier *)

Import ClassifierSpec.

Lemma template_inj (g g' : Strategy) : template g = template g' -> g = g'.
Proof.
  destruct g, g'; first [reflexivity | intros H; vm_compute in H; discriminate H].
Qed.

Lemma create_sql_query_refines (lower : string -> string) (msg : string) :
  Screener.create_sql_query lower msg = template (first_match (lower msg)).
Proof.
  unfold Screener.create_sql_query, first_match, priority.
  cbn [find keywords].
  repeat (match goal with
          | |- context [any_in ?ws ?q] => destruct (any_in ws q); [reflexivity|]
          end).
  reflexivity.
Qed.

(** C1. [create_sql_query] lower-cases the message and returns the template
    of the first keyword group, in the order value, growth, dividend,
    safety, large cap, that has a keyword contained in the lower-cased
    message; with no such group it returns the default quality template
    (roe > 15 AND pe_ratio < 30 AND debt_to_equity < 1, by roe descending,
    limit 15).  A message whose lower-cased text contains "cheap" gets the
    value template and no other. *)
Theorem create_sql_query_first_match (lower : string -> string) (msg : string) :
  let query := lower msg in
  let sql := Screener.create_sql_query lower msg in
  sql = template (first_match query)
  /\ (forall pre g post,
        priority = pre ++ g :: post ->
        any_in (keywords g) query = true ->
        (forall g', In g' pre -> any_in (keywords g') query = false) ->
        sql = template g)
  /\ ((forall g, In g priority -> any_in (keywords g) query = false) ->
      sql = Screener.sql_default)
  /\ (contains "cheap" query = true ->
      sql = Screener.sql_value /\ forall g, g <> Value -> sql <> template g)
  /\ (contains "WHERE roe > 15 AND pe_ratio < 30 AND debt_to_equity < 1"
        Screener.sql_default = true
      /\ contains "ORDER BY roe DESC" Screener.sql_default = true
      /\ contains "LIMIT 15" Screener.sql_default = true).
Proof.
  intros query sql. subst sql.
  rewrite create_sql_query_refines. fold query.
  split; [reflexivity|]. split; [|split; [|split]].
  - intros pre g post Hsplit Hg Hpre. unfold first_match. rewrite Hsplit.
    by rewrite (find_first _ pre g post Hg Hpre).
  - intros Hnone. unfold first_match. by rewrite find_none.
  - intros Hcheap.
    assert (first_match query = Value) as ->.
    { unfold first_match, priority. cbn [find keywords].
      unfold any_in at 1. cbn [existsb]. rewrite Hcheap.
      by rewrite orb_true_r. }
    split; [reflexivity|]. intros g Hg Heq. apply Hg. symmetry.
    by apply template_inj.
  - repeat split; vm_compute; reflexivity.
Qed.

(** The theorem at work: upper-case "CHEAP" next to the growth keyword
    still selects the value template, and a message without keywords the
    default one. *)
Lemma create_sql_query_first_match_witness :
  Screener.create_sql_query ascii_lower "Find CHEAP growth stocks"
    = Screener.sql_value
  /\ Screener.create_sql_query ascii_lower "tell me a joke"
    = Screener.sql_default.
Proof.
  split.
  - apply (create_sql_query_first_match ascii_lower "Find CHEAP growth stocks").
    vm_compute. reflexivity.
  - apply (create_sql_query_first_match ascii_lower "tell me a joke").
    intros g Hg. simpl in Hg.
    destruct Hg as [<-|[<-|[<-|[<-|[<-|[]]]]]]; vm_compute; reflexivity.
Defined.

(** *** The screening engine *)

Section EngineFacts.

Import Screener.

Variable lower : string -> string.
Variable float_repr : float -> string.
Variable sqlite_connect : string -> Exn + unit.
Variable sqlite_select : string -> Exn + (list string * list (list PyVal)).
Variable generate_content : string -> Exn + string.

Abbreviation search := (search_stocks lower sqlite_connect sqlite_select).
Abbreviation prompt_of := (create_ai_prompt float_repr).
Abbreviation respond := (get_ai_response generate_content).
Abbreviation reply := (ai_text generate_content).
Abbreviation looked_up := (Screener.looked_up lower sqlite_connect sqlite_select).
Abbreviation process :=
  (process_user_message lower float_repr sqlite_connect sqlite_select
     generate_content).

Lemma get_ai_response_eq (prompt : string) :
  respond prompt = (reply prompt, [EvGenerate prompt]).
Proof.
  unfold ai_text, get_ai_response, bind, emit, ret.
  by destruct (generate_content prompt).
Qed.

(** [process_user_message] on a message that asks for stock data. *)
Lemma process_with_lookup (self : State) (msg : string) :
  any_in trigger_keywords (lower msg) = true ->
  let found := search self msg in
  let prompt := prompt_of self msg found.1 in
  process self msg =
    ((reply prompt,
      MkState (db_path self)
        (conversation_history self ++ [MkTurn msg (reply prompt)])
        found.1),
     [EvPrint " Searching database for stocks..."] ++ found.2 ++
     [EvPrint (" Found " +:+ pretty (length found.1) +:+ " stocks" +:+ nl);
      EvPrint (nl +:+ " AI Assistant: ");
      EvGenerate prompt;
      EvTyping (reply prompt)]).
Proof.
  intros Hneeds found prompt. unfold process_user_message.
  rewrite Hneeds. fold found. destruct found as [rows trace] eqn:Hfound.
  subst prompt. cbn [fst snd].
  unfold bind at 1. unfold bind at 1. cbn [emit].
  unfold bind at 1. unfold bind at 1. cbn [emit ret].
  unfold create_ai_prompt; cbn [conversation_history db_path current_stocks].
  fold (create_ai_prompt float_repr self msg rows).
  unfold bind at 1. cbn [emit]. unfold bind at 1.
  rewrite get_ai_response_eq. unfold bind, simulate_typing, emit, ret.
  f_equal. rewrite <- !app_assoc. reflexivity.
Qed.

(** [process_user_message] on any other message. *)
Lemma process_without_lookup (self : State) (msg : string) :
  any_in trigger_keywords (lower msg) = false ->
  let prompt := prompt_of self msg [] in
  process self msg =
    ((reply prompt,
      MkState (db_path self)
        (conversation_history self ++ [MkTurn msg (reply prompt)])
        (current_stocks self)),
     [EvPrint (nl +:+ " AI Assistant: ");
      EvGenerate prompt;
      EvTyping (reply prompt)]).
Proof.
  intros Hneeds prompt. unfold process_user_message.
  rewrite Hneeds. fold prompt.
  unfold bind at 1. cbn [ret]. unfold bind at 1. cbn [emit]. unfold bind at 1.
  rewrite get_ai_response_eq. unfold bind, simulate_typing, emit, ret.
  reflexivity.
Qed.

Abbreviation search_try :=
  (search_stocks_try lower sqlite_connect sqlite_select).

(** What the [try] block of [search_stocks] does, case by case. *)
Lemma search_stocks_try_cases (self : State) (msg : string) :
  let sql := create_sql_query lower msg in
  match sqlite_connect (db_path self) with
  | inl e => search_try self msg = (inl e, [EvConnect (db_path self)])
  | inr _ =>
      match sqlite_select sql with
      | inl e =>
          search_try self msg
          = (inl e, [EvConnect (db_path self); EvExecute sql])
      | inr (columns, rows) =>
          search_try self msg
          = (inr (map (fun row => py_dict (zip columns row)) rows),
             [EvConnect (db_path self); EvExecute sql])
      end
  end.
Proof.
  intros sql. unfold search_stocks_try. fold sql.
  destruct (sqlite_connect (db_path self)) as [e|u]; [reflexivity|].
  destruct (sqlite_select sql) as [e|[columns rows]]; reflexivity.
Qed.

(** The [except] clause: an error raised in the [try] block becomes the
    empty list and one line on the console. *)
Lemma search_stocks_except (self : State) (msg : string) (e : Exn)
    (trace : list Event) :
  search_try self msg = (inl e, trace) ->
  search self msg
  = ([], trace ++ [EvPrint ("Database error: " +:+ exn_str e +:+ nl)]).
Proof.
  intros H. unfold search_stocks. rewrite H. reflexivity.
Qed.

Lemma search_stocks_else (self : State) (msg : string)
    (results : list (gmap string PyVal)) (trace : list Event) :
  search_try self msg = (inr results, trace) ->
  search self msg = (results, trace).
Proof.
  intros H. unfold search_stocks. rewrite H. cbn. by rewrite app_nil_r.
Qed.

(** A lookup opens the database first and never calls the model. *)
Lemma search_stocks_trace (self : State) (msg : string) :
  exists rest,
    (search self msg).2 = EvConnect (db_path self) :: rest
    /\ forall prompt, ~ In (EvGenerate prompt) rest.
Proof.
  pose proof (search_stocks_try_cases self msg) as H. cbn zeta in H.
  destruct (sqlite_connect (db_path self)) as [e|u].
  - rewrite (search_stocks_except _ _ _ _ H). eexists. split; [reflexivity|].
    intros prompt [Hin|[]]. discriminate.
  - destruct (sqlite_select _) as [e|[columns rows]].
    + rewrite (search_stocks_except _ _ _ _ H). eexists. split; [reflexivity|].
      intros prompt [Hin|[Hin|[]]]; discriminate.
    + rewrite (search_stocks_else _ _ _ _ H). eexists. split; [reflexivity|].
      intros prompt [Hin|[]]. discriminate.
Qed.

(** C2. When the lower-cased message contains one of the eleven trigger
    keywords, [process_user_message] performs a database lookup and the
    current stock result set becomes the lookup's output; when it
    contains none, no database call is made and the current stock result
    set is the one from before the call. *)
Theorem process_user_message_lookup_frame (self : State) (msg : string) :
  let needs_stock_data :=
    any_in ["find"; "show"; "recommend"; "suggest"; "good"; "best"; "stocks";
            "companies"; "investment"; "buy"; "portfolio"] (lower msg) in
  let result := process self msg in
  (needs_stock_data = true ->
     In (EvConnect (db_path self)) result.2
     /\ current_stocks result.1.2 = (search self msg).1)
  /\ (needs_stock_data = false ->
      (forall e, In e result.2 -> is_db_event e = false)
      /\ current_stocks result.1.2 = current_stocks self).
Proof.
  intros needs result. split; intros Hneeds; subst result.
  - rewrite (process_with_lookup self msg Hneeds). cbn [fst snd current_stocks].
    split; [|reflexivity].
    destruct (search_stocks_trace self msg) as (rest & -> & _).
    right. by left.
  - rewrite (process_without_lookup self msg Hneeds).
    cbn [fst snd current_stocks]. split; [|reflexivity].
    intros e [<-|[<-|[<-|[]]]]; reflexivity.
Qed.

(** *** The prompt *)

Import PromptSpec.

Lemma fold_add_turn (window : list Turn) (acc : string) :
  fold_left add_turn window acc = acc +:+ join (map turn_lines window).
Proof.
  revert acc. induction window as [|t window IH]; intros acc.
  - cbn. by rewrite append_nil_r.
  - cbn [fold_left map join foldr]. rewrite IH. unfold add_turn, turn_lines.
    fold (join (map turn_lines window)). by rewrite !append_assoc.
Qed.

Lemma add_stock_eq (acc : string) (i : Z) (stock : gmap string PyVal) :
  add_stock float_repr acc (i, stock) = acc +:+ stock_lines float_repr i stock.
Proof.
  unfold add_stock, stock_lines, stock_field. by rewrite !append_assoc.
Qed.

Lemma fold_add_stock (rows : list (gmap string PyVal)) (start : Z) (acc : string) :
  fold_left (add_stock float_repr) (enumerate rows start) acc
  = acc +:+ join (imap (fun i stock =>
                          stock_lines float_repr (start + Z.of_nat i) stock) rows).
Proof.
  revert start acc. induction rows as [|stock rows IH]; intros start acc.
  - cbn. by rewrite append_nil_r.
  - cbn [enumerate fold_left]. rewrite IH, add_stock_eq, append_assoc.
    f_equal. rewrite imap_cons. cbn [join foldr]. rewrite Z.add_0_r.
    f_equal. unfold join. f_equal. apply imap_ext. intros i x _. cbn.
    f_equal. lia.
Qed.

(** The prompt is the system prompt and a blank line, followed by the
    three sections. *)
Lemma create_ai_prompt_sections (self : State) (msg : string)
    (stock_data : list (gmap string PyVal)) :
  let history := conversation_history self in
  prompt_of self msg stock_data
  = system_prompt +:+ nl +:+ nl
    +:+ history_section (drop (length history - 4) history)
    +:+ stocks_section float_repr (take 8 stock_data)
    +:+ question_section msg.
Proof.
  cbv zeta. unfold create_ai_prompt.
  generalize (conversation_history self). intros history.
  change (Some (-4)%Z) with (Some (- Z.of_nat 4)%Z).
  change (Some 8%Z) with (Some (Z.of_nat 8)).
  rewrite py_slice_first.
  assert (Hwindow : forall t rest,
    history = t :: rest ->
    history_section (drop (length history - 4) history)
    = "Previous conversation:" +:+ nl
      +:+ join (map turn_lines (drop (length history - 4) history))).
  { intros t rest Hh.
    destruct (drop (length history - 4) history) as [|t' w] eqn:Hw; [|done].
    apply (f_equal length) in Hw. rewrite length_drop, Hh in Hw.
    cbn [length] in Hw. lia. }
  destruct history as [|t rest]; destruct stock_data as [|stock more].
  - cbn [drop take history_section stocks_section length Nat.sub].
    unfold question_section. by rewrite !append_assoc.
  - rewrite fold_add_stock.
    cbn [drop take history_section stocks_section length Nat.sub].
    unfold question_section. by rewrite !append_assoc.
  - rewrite py_slice_last by lia. rewrite fold_add_turn.
    rewrite (Hwindow t rest eq_refl). cbn [take stocks_section].
    unfold question_section. by rewrite !append_assoc.
  - rewrite py_slice_last by lia. rewrite fold_add_turn, fold_add_stock.
    rewrite (Hwindow t rest eq_refl). cbn [take stocks_section].
    unfold question_section. by rewrite !append_assoc.
Qed.

(** A lookup never calls the model. *)
Lemma search_stocks_sends_nothing (self : State) (msg : string) :
  sent_prompts (search self msg).2 = [].
Proof.
  pose proof (search_stocks_try_cases self msg) as H. cbn zeta in H.
  destruct (sqlite_connect (db_path self)) as [e|u].
  - by rewrite (search_stocks_except _ _ _ _ H).
  - destruct (sqlite_select _) as [e|[columns rows]].
    + by rewrite (search_stocks_except _ _ _ _ H).
    + by rewrite (search_stocks_else _ _ _ _ H).
Qed.

(** One call of [process_user_message]: its answer, the turn it records
    and the one prompt it sends. *)
Lemma process_user_message_summary (self : State) (msg : string) :
  let prompt := prompt_of self msg (looked_up self msg) in
  let result := process self msg in
  result.1.1 = reply prompt
  /\ conversation_history result.1.2
     = conversation_history self ++ [MkTurn msg (reply prompt)]
  /\ db_path result.1.2 = db_path self
  /\ sent_prompts result.2 = [prompt].
Proof.
  unfold looked_up. cbv zeta.
  destruct (any_in trigger_keywords (lower msg)) eqn:Hneeds.
  - rewrite (process_with_lookup self msg Hneeds).
    cbn [fst snd conversation_history db_path]. repeat split.
    unfold sent_prompts. rewrite !omap_app.
    fold (sent_prompts (search self msg).2).
    by rewrite search_stocks_sends_nothing.
  - rewrite (process_without_lookup self msg Hneeds).
    cbn [fst snd conversation_history db_path]. by repeat split.
Qed.

(** C3. When the call to the model raises an error, [get_ai_response]
    returns an apology that embeds the error's text instead of raising;
    [process_user_message] returns that non-empty string and appends it to
    the conversation history as the assistant's turn. *)
Theorem ai_failure_yields_apology (self : State) (msg : string) (e : Exn) :
  let apology := "Sorry, I encountered an error: " +:+ exn_str e in
  let result := process self msg in
  (forall prompt, generate_content prompt = inl e ->
                  respond prompt = (apology, [EvGenerate prompt]))
  /\ apology <> EmptyString
  /\ contains "Sorry" apology = true
  /\ contains (exn_str e) apology = true
  /\ ((forall prompt, In prompt (sent_prompts result.2) ->
                      generate_content prompt = inl e) ->
      result.1.1 = apology
      /\ conversation_history result.1.2
         = conversation_history self ++ [MkTurn msg apology]).
Proof.
  intros apology result.
  assert (Hreply : forall prompt, generate_content prompt = inl e ->
                                  reply prompt = apology).
  { intros prompt Hfail. unfold ai_text, get_ai_response, bind, emit, ret.
    by rewrite Hfail. }
  split; [|split; [|split; [|split]]].
  - intros prompt Hp. rewrite get_ai_response_eq. by rewrite (Hreply prompt Hp).
  - discriminate.
  - reflexivity.
  - apply contains_iff.
    exists "Sorry, I encountered an error: ", EmptyString.
    subst apology. by rewrite append_nil_r.
  - intros Hfail.
    destruct (process_user_message_summary self msg)
      as (Hres & Hhist & _ & Hsent).
    fold result in Hres, Hhist, Hsent.
    assert (Hin : In (prompt_of self msg (looked_up self msg))
                    (sent_prompts result.2)) by (rewrite Hsent; by left).
    rewrite Hres, Hhist. by rewrite (Hreply _ (Hfail _ Hin)).
Qed.

(** C9. An error raised while the database is opened or the classified
    query is executed is caught inside [search_stocks], which returns the
    empty list; [process_user_message] then goes on as with a query that
    matched no stock: zero stocks reported, an empty current stock result
    set, a prompt without a stocks section. *)
Theorem search_stocks_catches_errors (self : State) (msg : string) (e : Exn) :
  sqlite_connect (db_path self) = inl e
  \/ (exists u, sqlite_connect (db_path self) = inr u)
     /\ sqlite_select (create_sql_query lower msg) = inl e ->
  (exists trace,
     search_try self msg = (inl e, trace)
     /\ search self msg
        = ([], trace ++ [EvPrint ("Database error: " +:+ exn_str e +:+ nl)]))
  /\ (any_in trigger_keywords (lower msg) = true ->
      let prompt := prompt_of self msg [] in
      let result := process self msg in
      result.1.1 = reply prompt
      /\ current_stocks result.1.2 = []
      /\ In (EvPrint (" Found 0 stocks" +:+ nl)) result.2
      /\ sent_prompts result.2 = [prompt]
      /\ prompt = system_prompt +:+ nl +:+ nl
                  +:+ history_section
                        (drop (length (conversation_history self) - 4)
                           (conversation_history self))
                  +:+ question_section msg).
Proof.
  intros Herr.
  assert (Htry : exists trace, search_try self msg = (inl e, trace)).
  { pose proof (search_stocks_try_cases self msg) as H. cbn zeta in H.
    destruct Herr as [Hc|[[u Hc] Hs]]; rewrite Hc in H.
    - eauto.
    - rewrite Hs in H. eauto. }
  destruct Htry as [trace Htry].
  pose proof (search_stocks_except _ _ _ _ Htry) as Hsearch.
  split; [by exists trace|].
  intros Hneeds prompt result.
  destruct (process_user_message_summary self msg) as (Hres & _ & _ & Hsent).
  fold result in Hres, Hsent.
  assert (Hrows : looked_up self msg = []).
  { unfold Screener.looked_up. by rewrite Hneeds, Hsearch. }
  rewrite Hrows in Hres, Hsent. fold prompt in Hres, Hsent.
  split; [exact Hres|]. split; [|split; [|split; [exact Hsent|]]].
  - subst result. rewrite (process_with_lookup self msg Hneeds).
    cbn [fst snd current_stocks]. by rewrite Hsearch.
  - subst result. rewrite (process_with_lookup self msg Hneeds).
    rewrite Hsearch. cbn [fst snd length].
    apply in_or_app. right. apply in_or_app. right. by left.
  - subst prompt. rewrite create_ai_prompt_sections. cbn [take stocks_section].
    reflexivity.
Qed.

(** C6. The "previous conversation" section of the prompt holds the last
    min(n, 4) turns of a history of n turns, in their order, and is absent
    when the history is empty. *)
Theorem prompt_history_window (self : State) (msg : string)
    (stock_data : list (gmap string PyVal)) :
  let history := conversation_history self in
  exists older window,
    history = older ++ window
    /\ length window = Nat.min (length history) 4
    /\ prompt_of self msg stock_data
       = system_prompt +:+ nl +:+ nl
         +:+ history_section window
         +:+ stocks_section float_repr (take 8 stock_data)
         +:+ question_section msg
    /\ history_section window
       = match history with
         | [] => EmptyString
         | _ :: _ =>
             "Previous conversation:" +:+ nl +:+ join (map turn_lines window)
         end.
Proof.
  intros history.
  exists (take (length history - 4) history),
         (drop (length history - 4) history).
  split; [by rewrite take_drop|]. split; [rewrite length_drop; lia|].
  split; [apply create_ai_prompt_sections|].
  destruct history as [|t rest] eqn:Hh; [reflexivity|].
  destruct (drop _ _) as [|t' w] eqn:Hw; [|reflexivity].
  apply (f_equal length) in Hw. rewrite length_drop in Hw.
  cbn [length] in Hw. lia.
Qed.

(** C7. The "stocks found" section of the prompt that
    [process_user_message] sends is built from the rows of this message's
    lookup, whatever the stored current stocks are; it is absent when the
    lookup gave no row (or did not take place) and otherwise lists the
    first min(length, 8) rows, numbered from 1, each with name, symbol,
    sector, P/E, ROE and percent sign, market cap and unit. *)
Theorem prompt_stocks_section (self : State) (msg : string) :
  let stock_data := looked_up self msg in
  let shown := take 8 stock_data in
  let prompt := prompt_of self msg stock_data in
  sent_prompts (process self msg).2 = [prompt]
  /\ (forall stored,
        sent_prompts
          (process (MkState (db_path self) (conversation_history self) stored)
             msg).2
        = [prompt])
  /\ stock_data
     = (if any_in trigger_keywords (lower msg) then (search self msg).1 else [])
  /\ length shown = Nat.min (length stock_data) 8
  /\ prompt
     = system_prompt +:+ nl +:+ nl
       +:+ history_section (drop (length (conversation_history self) - 4)
                              (conversation_history self))
       +:+ stocks_section float_repr shown
       +:+ question_section msg
  /\ stocks_section float_repr shown
     = match stock_data with
       | [] => EmptyString
       | _ :: _ =>
           "Here are the stocks I found in the database:" +:+ nl
           +:+ join (imap (fun i stock =>
                             stock_lines float_repr (1 + Z.of_nat i) stock)
                       shown)
       end.
Proof.
  intros stock_data shown prompt.
  split; [apply process_user_message_summary|].
  split.
  { intros stored.
    destruct (process_user_message_summary
                (MkState (db_path self) (conversation_history self) stored) msg)
      as (_ & _ & _ & ->).
    reflexivity. }
  split; [reflexivity|].
  split; [subst shown; rewrite length_take; lia|].
  split; [apply create_ai_prompt_sections|].
  subst shown. by destruct stock_data.
Qed.

(** *** Result rows as dictionaries *)

Lemma py_dict_fold_absent (pairs : list (string * PyVal))
    (d : gmap string PyVal) (key : string) :
  key ∉ pairs.*1 ->
  fold_left (fun d kv => <[kv.1 := kv.2]> d) pairs d !! key = d !! key.
Proof.
  revert d. induction pairs as [|[k v] pairs IH]; intros d Hnot; [done|].
  cbn [fold_left fst snd]. rewrite IH.
  - apply lookup_insert_ne. intros ->. apply Hnot. cbn. left.
  - intros Hin. apply Hnot. cbn. by right.
Qed.

Lemma py_dict_fold_present (pairs : list (string * PyVal))
    (d : gmap string PyVal) (key : string) (v : PyVal) :
  NoDup pairs.*1 -> (key, v) ∈ pairs ->
  fold_left (fun d kv => <[kv.1 := kv.2]> d) pairs d !! key = Some v.
Proof.
  revert d. induction pairs as [|[k w] pairs IH]; intros d Hnd Hin.
  - by apply elem_of_nil in Hin.
  - cbn in Hnd. apply NoDup_cons in Hnd as [Hk Hnd].
    cbn [fold_left fst snd]. apply elem_of_cons in Hin as [Heq|Hin].
    + injection Heq as -> ->. rewrite py_dict_fold_absent by done.
      apply lookup_insert_eq.
    + by apply IH.
Qed.

(** [dict(zip(columns, row))] maps each column to the value at its place,
    when no column name occurs twice. *)
Lemma py_dict_zip_lookup (columns : list string) (row : list PyVal)
    (j : nat) (c : string) (v : PyVal) :
  NoDup columns -> columns !! j = Some c -> row !! j = Some v ->
  py_dict (zip columns row) !! c = Some v.
Proof.
  intros Hnd Hc Hv. unfold py_dict. apply py_dict_fold_present.
  - eapply sublist_NoDup; [exact Hnd|]. clear.
    revert row. induction columns as [|c columns IH]; intros [|v row]; cbn;
      try apply sublist_nil_l.
    apply sublist_skip, IH.
  - apply list_elem_of_lookup. exists j. apply lookup_zip_with_Some.
    by exists c, v.
Qed.

Lemma py_dict_zip_absent (columns : list string) (row : list PyVal)
    (key : string) :
  key ∉ columns -> py_dict (zip columns row) !! key = None.
Proof.
  intros Hnot. unfold py_dict. rewrite py_dict_fold_absent; [done|].
  intros Hin. apply Hnot. apply list_elem_of_fmap in Hin as ([c v] & -> & Hin).
  apply list_elem_of_lookup in Hin as [j Hj].
  apply lookup_zip_with_Some in Hj as (c' & v' & Heq & Hc & _).
  injection Heq as -> ->. cbn. apply list_elem_of_lookup. by exists j.
Qed.

(** X1. When the database answers, [search_stocks] returns one dictionary
    per row, in the order of the rows; with distinct column names the
    dictionary of a row maps each column to the row's value at that place
    and holds no other key, so the prompt renders the stored value (None
    for NULL) for a column and N/A for a key that is no column. *)
Theorem search_stocks_rows_as_dicts (self : State) (msg : string)
    (u : unit) (columns : list string) (rows : list (list PyVal)) :
  sqlite_connect (db_path self) = inr u ->
  sqlite_select (create_sql_query lower msg) = inr (columns, rows) ->
  NoDup columns ->
  let results := (search self msg).1 in
  length results = length rows
  /\ forall i row, rows !! i = Some row ->
       exists stock,
         results !! i = Some stock
         /\ (forall j c v, columns !! j = Some c -> row !! j = Some v ->
               stock !! c = Some v
               /\ stock_field float_repr stock c = py_str float_repr v)
         /\ (forall key, key ∉ columns ->
               stock !! key = None
               /\ stock_field float_repr stock key = "N/A").
Proof.
  intros Hc Hs Hnd results.
  pose proof (search_stocks_try_cases self msg) as H. cbn zeta in H.
  rewrite Hc, Hs in H. subst results.
  rewrite (search_stocks_else _ _ _ _ H). cbn [fst].
  split; [by rewrite length_map|].
  intros i row Hrow. exists (py_dict (zip columns row)). split.
  { change (map ?f rows) with (f <$> rows). by rewrite list_lookup_fmap, Hrow. }
  split.
  - intros j c v Hj Hv.
    pose proof (py_dict_zip_lookup columns row j c v Hnd Hj Hv) as Hl.
    split; [exact Hl|]. unfold stock_field, dict_get_or. by rewrite Hl.
  - intros key Hkey.
    pose proof (py_dict_zip_absent columns row key Hkey) as Hl.
    split; [exact Hl|]. unfold stock_field, dict_get_or. by rewrite Hl.
Qed.

(** *** What reaches the database and the model *)

(** The events of a lookup: opening the database of the screener,
    executing the classified query, console output. *)
Lemma search_stocks_events (self : State) (msg : string) (ev : Event) :
  In ev (search self msg).2 ->
  ev = EvConnect (db_path self)
  \/ ev = EvExecute (create_sql_query lower msg)
  \/ exists text, ev = EvPrint text.
Proof.
  pose proof (search_stocks_try_cases self msg) as H. cbn zeta in H.
  destruct (sqlite_connect (db_path self)) as [e|u].
  - rewrite (search_stocks_except _ _ _ _ H). cbn.
    intros [<-|[<-|[]]]; eauto.
  - destruct (sqlite_select _) as [e|[columns rows]].
    + rewrite (search_stocks_except _ _ _ _ H). cbn.
      intros [<-|[<-|[<-|[]]]]; eauto.
    + rewrite (search_stocks_else _ _ _ _ H). cbn.
      intros [<-|[<-|[]]]; eauto.
Qed.

(** The events of one call of [process_user_message]. *)
Lemma process_user_message_events (self : State) (msg : string) (ev : Event) :
  In ev (process self msg).2 ->
  ev = EvConnect (db_path self)
  \/ ev = EvExecute (create_sql_query lower msg)
  \/ ev = EvGenerate (prompt_of self msg (looked_up self msg))
  \/ ev = EvTyping (process self msg).1.1
  \/ exists text, ev = EvPrint text.
Proof.
  unfold Screener.looked_up.
  destruct (any_in trigger_keywords (lower msg)) eqn:Hneeds.
  - rewrite (process_with_lookup self msg Hneeds). cbn [fst snd].
    rewrite !in_app_iff. intros [Hin|[Hin|Hin]].
    + destruct Hin as [<-|[]]. eauto 6.
    + destruct (search_stocks_events self msg ev Hin) as [->|[->|Hp]]; eauto 6.
    + destruct Hin as [<-|[<-|[<-|[<-|[]]]]]; eauto 6.
  - rewrite (process_without_lookup self msg Hneeds). cbn [fst snd].
    intros [<-|[<-|[<-|[]]]]; eauto 6.
Qed.

(** X2. The text of the user never becomes SQL: whatever the message,
    every statement that [process_user_message] executes is one of the six
    fixed templates, and the only database it opens is the one of the
    screener. *)
Theorem process_user_message_fixed_sql (self : State) (msg : string) :
  (forall sql, In (EvExecute sql) (process self msg).2 ->
     In sql [sql_value; sql_growth; sql_dividend; sql_safe; sql_large_cap;
             sql_default])
  /\ (forall path, In (EvConnect path) (process self msg).2 ->
        path = db_path self).
Proof.
  split.
  - intros sql Hin.
    destruct (process_user_message_events self msg _ Hin)
      as [H|[H|[H|[H|[text H]]]]]; try discriminate H.
    injection H as ->. rewrite create_sql_query_refines.
    destruct (first_match (lower msg)); cbn; tauto.
  - intros path Hin.
    destruct (process_user_message_events self msg _ Hin)
      as [H|[H|[H|[H|[text H]]]]]; try discriminate H.
    by injection H.
Qed.





(** *** The commands of the chat loop *)

Variable strip : string -> string.

Abbreviation show := (show_current_stocks float_repr).
Abbreviation step :=
  (main_step lower float_repr sqlite_connect sqlite_select generate_content
     strip).
Abbreviation loop :=
  (main_loop lower float_repr sqlite_connect sqlite_select generate_content
     strip).

Lemma for_io_prints {A} (items : list A) (body : A -> IO unit)
    (line : A -> string) :
  (forall x, body x = emit (EvPrint (line x))) ->
  for_io items body = (tt, map (fun x => EvPrint (line x)) items).
Proof.
  intros Hbody. induction items as [|x items IH]; [reflexivity|].
  cbn [for_io map]. unfold bind at 1. rewrite Hbody. cbn [emit]. by rewrite IH.
Qed.

Lemma map_enumerate {A B} (f : Z -> A -> B) (l : list A) (start : Z) :
  map (fun entry => f entry.1 entry.2) (enumerate l start)
  = imap (fun i x => f (start + Z.of_nat i)%Z x) l.
Proof.
  revert start. induction l as [|x l IH]; intros start; [reflexivity|].
  cbn [enumerate map fst snd]. rewrite imap_cons, IH, Z.add_0_r. f_equal.
  apply imap_ext. intros i y _. cbn. f_equal. lia.
Qed.

(** The console output of [show_current_stocks], line by line. *)
Lemma show_current_stocks_trace (self : State) :
  let stocks := current_stocks self in
  let n := length stocks in
  (show self).2
  = match stocks with
    | [] => [EvPrint ("No stocks currently loaded" +:+ nl)]
    | _ :: _ =>
        EvPrint (nl +:+ "📊 Current stocks (" +:+ pretty n +:+ "):" +:+ nl)
        :: imap (fun i stock =>
                   EvPrint (pretty (1 + Z.of_nat i)%Z +:+ ". "
                            +:+ stock_field float_repr stock "name" +:+ " ("
                            +:+ stock_field float_repr stock "symbol" +:+ ")"
                            +:+ nl))
             (take 10 stocks)
        ++ (if decide (10 < n)
            then [EvPrint ("... and " +:+ pretty (Z.of_nat n - 10)%Z
                           +:+ " more" +:+ nl)]
            else [])
    end.
Proof.
  cbv zeta. unfold show_current_stocks.
  destruct (current_stocks self) as [|stock rest] eqn:Hs; [reflexivity|].
  change (Some 10%Z) with (Some (Z.of_nat 10)). rewrite py_slice_first.
  unfold bind at 1. cbn [emit]. unfold bind at 1.
  rewrite (for_io_prints _ _
             (fun entry : Z * gmap string PyVal =>
                pretty entry.1 +:+ ". " +:+ stock_field float_repr entry.2 "name"
                +:+ " (" +:+ stock_field float_repr entry.2 "symbol" +:+ ")"
                +:+ nl)) by (by intros []).
  rewrite (map_enumerate
             (fun i stock =>
                EvPrint (pretty i +:+ ". " +:+ stock_field float_repr stock "name"
                         +:+ " (" +:+ stock_field float_repr stock "symbol"
                         +:+ ")" +:+ nl))).
  cbn [app]. f_equal. f_equal.
  destruct (Z.ltb_spec 10 (Z.of_nat (length (stock :: rest)))) as [Hlt|Hge];
    destruct (decide (10 < length (stock :: rest))) as [Hd|Hd]; try lia;
    cbn; by rewrite ?app_nil_r.
Qed.

Lemma show_current_stocks_only_prints (self : State) (ev : Event) :
  In ev (show self).2 -> exists text, ev = EvPrint text.
Proof.
  rewrite show_current_stocks_trace.
  destruct (current_stocks self) as [|stock rest]; cbn zeta.
  - intros [<-|[]]. eauto.
  - intros [<-|Hin]; [eauto|]. apply in_app_iff in Hin as [Hin|Hin].
    + apply list_elem_of_In, list_elem_of_lookup in Hin as [i Hi].
      rewrite list_lookup_imap in Hi.
      destruct (take 10 (stock :: rest) !! i); [|discriminate].
      injection Hi as <-. eauto.
    + destruct (decide _); [|done]. destruct Hin as [<-|[]]. eauto.
Qed.

(** X6. [show_current_stocks] lists the first min(n, 10) of the n current
    stocks, numbered from 1, after a header that gives n; it adds a line
    with the number n - 10 of stocks left out exactly when n exceeds 10,
    and prints a single notice when there is none.  It writes to the
    console only. *)
Theorem show_current_stocks_listing (self : State) :
  let stocks := current_stocks self in
  let n := length stocks in
  (forall ev, In ev (show self).2 -> exists text, ev = EvPrint text)
  /\ (n = 0 -> (show self).2 = [EvPrint ("No stocks currently loaded" +:+ nl)])
  /\ (0 < n ->
      exists lines,
        length lines = Nat.min n 10
        /\ (forall i stock, take 10 stocks !! i = Some stock ->
              lines !! i
              = Some (EvPrint (pretty (1 + Z.of_nat i)%Z +:+ ". "
                               +:+ stock_field float_repr stock "name" +:+ " ("
                               +:+ stock_field float_repr stock "symbol" +:+ ")"
                               +:+ nl)))
        /\ (show self).2
           = EvPrint (nl +:+ "📊 Current stocks (" +:+ pretty n +:+ "):" +:+ nl)
             :: lines
             ++ (if decide (10 < n)
                 then [EvPrint ("... and " +:+ pretty (Z.of_nat n - 10)%Z
                                +:+ " more" +:+ nl)]
                 else [])).
Proof.
  intros stocks n.
  split; [apply show_current_stocks_only_prints|].
  pose proof (show_current_stocks_trace self) as H. cbv zeta in H.
  fold stocks in H. fold n in H. split.
  - intros Hn. destruct stocks; [exact H|discriminate].
  - intros Hn. destruct stocks as [|stock rest] eqn:Hs; [cbn in n; lia|].
    eexists. split; [|split; [|exact H]].
    + rewrite length_imap, length_take. subst n. lia.
    + intros i x Hi. by rewrite list_lookup_imap, Hi.
Qed.




(** X8. An error raised by [input], such as the end of the input, does not
    end the chat loop: however often it occurs, the loop goes on with the
    state unchanged, printing the prompt and the error each time. *)
Theorem input_errors_never_end_the_loop (self : State) (e : Exn) (n : nat) :
  loop (replicate n (InputFailed e)) self
  = ((Continue, self),
     concat (replicate n [EvPrint (nl +:+ "🔵 You: ");
                          EvPrint (nl +:+ "❌ Error: " +:+ exn_str e +:+ nl)])).
Proof.
  induction n as [|n IH]; [reflexivity|].
  cbn [replicate main_loop concat].
  change (step self (InputFailed e))
    with ((Continue, self),
          [EvPrint (nl +:+ "🔵 You: ");
           EvPrint (nl +:+ "❌ Error: " +:+ exn_str e +:+ nl)]).
  unfold bind at 1. rewrite IH. reflexivity.
Qed.

(** *** More on the classifier *)

Lemma contains_trans (a b q : string) :
  contains a b = true -> contains b q = true -> contains a q = true.
Proof.
  rewrite !contains_iff. intros (x & y & ->) (u & v & ->).
  exists (u +:+ x), (y +:+ v). by rewrite !append_assoc.
Qed.

Lemma orb3_absorb (x y z : bool) : (z = true -> x = true) ->
  x || (y || (z || false)) = x || (y || false).
Proof. destruct x, y, z; intros H; try reflexivity; by discriminate H. Qed.

(** X20. Two keywords never decide: a message whose lower-cased text
    contains "high growth" contains "growth", and one that contains
    "large cap" contains "large"; [create_sql_query] is the same function
    without them. *)
Theorem shadowed_keywords_never_decide (msg : string) :
  let query := lower msg in
  (contains "high growth" query = true -> contains "growth" query = true)
  /\ (contains "large cap" query = true -> contains "large" query = true)
  /\ create_sql_query lower msg
     = if any_in ["value"; "cheap"; "undervalued"] query then sql_value
       else if any_in ["growth"; "growing"] query then sql_growth
       else if any_in ["dividend"; "income"; "yield"] query then sql_dividend
       else if any_in ["safe"; "stable"; "low risk"] query then sql_safe
       else if any_in ["big"; "large"] query then sql_large_cap
       else sql_default.
Proof.
  intros query.
  assert (H1 : contains "high growth" query = true -> contains "growth" query = true)
    by (apply contains_trans; reflexivity).
  assert (H2 : contains "large cap" query = true -> contains "large" query = true)
    by (apply contains_trans; reflexivity).
  split; [exact H1|]. split; [exact H2|].
  unfold create_sql_query. fold query. unfold any_in. cbn [existsb].
  rewrite (orb3_absorb _ _ _ H1).
  replace (contains "large cap" query || (contains "big" query
             || (contains "large" query || false)))
    with (contains "big" query || (contains "large" query || false)); [done|].
  destruct (contains "large cap" query); [|reflexivity].
  rewrite (H2 eq_refl). by destruct (contains "big" query).
Qed.

Lemma search_stocks_executed (self : State) (msg : string) :
  executed_sql (search self msg).2
  = match sqlite_connect (db_path self) with
    | inl _ => []
    | inr _ => [create_sql_query lower msg]
    end.
Proof.
  pose proof (search_stocks_try_cases self msg) as H. cbn zeta in H.
  destruct (sqlite_connect (db_path self)) as [e|u].
  - by rewrite (search_stocks_except _ _ _ _ H).
  - destruct (sqlite_select _) as [e|[columns rows]].
    + by rewrite (search_stocks_except _ _ _ _ H).
    + by rewrite (search_stocks_else _ _ _ _ H).
Qed.

(** X21. A message costs at most one query: [process_user_message]
    executes the statement that [create_sql_query] picks for the message,
    once, when the message holds a trigger keyword and the database can be
    opened, and executes nothing otherwise. *)
Theorem one_query_per_message (self : State) (msg : string) :
  executed_sql (process self msg).2
  = if any_in trigger_keywords (lower msg) then
      match sqlite_connect (db_path self) with
      | inl _ => []
      | inr _ => [create_sql_query lower msg]
      end
    else [].
Proof.
  destruct (any_in trigger_keywords (lower msg)) eqn:Hneeds.
  - rewrite (process_with_lookup self msg Hneeds). cbn [snd].
    unfold executed_sql. rewrite !omap_app.
    fold (executed_sql (search self msg).2). rewrite search_stocks_executed.
    cbn. by rewrite app_nil_r.
  - by rewrite (process_without_lookup self msg Hneeds).
Qed.

End EngineFacts.

(** *** The loader *)

Section LoaderFacts.

Import Scraper LoaderSpec.

Variable ticker_info : nat -> string -> Exn + gmap string PyVal.
Variable save_fault : nat -> option SaveFault.
Variable current_timestamp : nat -> string.

Abbreviation fetch := (fetch_stock_data_yfinance ticker_info).
Abbreviation save := (save_to_database save_fault current_timestamp).

Lemma truthy_mul100 (v : PyVal) :
  truthy v = true -> py_mul100 v = inr (percent v).
Proof.
  intros H. unfold percent. rewrite H. by destruct v.
Qed.

Lemma percent_falsy (v : PyVal) : truthy v = false -> percent v = v.
Proof. intros H. unfold percent. by rewrite H. Qed.

Lemma to_percent_eq (get : StockData -> PyVal)
    (set : PyVal -> StockData -> StockData) (d : StockData) (w : World) :
  (forall d', set (get d') d' = d') ->
  to_percent get set d w = (inr (set (percent (get d)) d), w).
Proof.
  intros Hset. unfold to_percent. destruct (truthy (get d)) eqn:H.
  - unfold bind. by rewrite (truthy_mul100 _ H).
  - by rewrite (percent_falsy _ H), Hset.
Qed.

Lemma fetch_answered (symbol : string) (w : World) (info : gmap string PyVal) :
  ticker_info (requests w) symbol = inr info ->
  fetch symbol w = (inr (Some (fundamentals symbol info)), after_request w).
Proof.
  intros H. unfold fetch_stock_data_yfinance, try_except, bind at 1.
  unfold request_info. rewrite H. fold (after_request w).
  unfold bind at 1. rewrite to_percent_eq by (by intros []).
  unfold bind at 1. rewrite to_percent_eq by (by intros []).
  unfold bind at 1. rewrite to_percent_eq by (by intros []).
  unfold bind at 1. rewrite to_percent_eq by (by intros []).
  reflexivity.
Qed.

Lemma fetch_refused (symbol : string) (w : World) (e : Exn) :
  ticker_info (requests w) symbol = inl e ->
  fetch symbol w = (inr None, after_request w).
Proof.
  intros H. unfold fetch_stock_data_yfinance, try_except, bind at 1.
  unfold request_info. by rewrite H.
Qed.

Lemma is_zero_falsy (v : PyVal) : is_zero v = true -> truthy v = false.
Proof. destruct v; cbn; try discriminate; by intros ->. Qed.

(** C4. Each of the four percentage fields is stored times 100 exactly
    when the provider's value is present and truthy: 0.18 becomes 18.0,
    while an absent value and a zero stay as they are. *)
Theorem percentage_fields_scaled (symbol : string) (w : World)
    (info : gmap string PyVal) :
  ticker_info (requests w) symbol = inr info ->
  exists d,
    (fetch symbol w).1 = inr (Some d)
    /\ roe d = percent (dict_get info "returnOnEquity")
    /\ revenue_growth d = percent (dict_get info "revenueGrowth")
    /\ net_profit_margin d = percent (dict_get info "profitMargins")
    /\ dividend_yield d = percent (dict_get info "dividendYield")
    /\ (forall v, truthy v = true -> py_mul100 v = inr (percent v))
    /\ (forall v, truthy v = false -> percent v = v)
    /\ (forall z, percent (PyInt z)
                  = if (z =? 0)%Z then PyInt z else PyInt (z * 100))
    /\ (forall f, percent (PyFloat f)
                  = if PrimFloat.eqb f 0 then PyFloat f
                    else PyFloat (f * 100)%float)
    /\ percent PyNone = PyNone
    /\ percent (PyFloat 0x1.70a3d70a3d70ap-3 (* 0.18 *)) = PyFloat 18
    /\ percent (PyInt 0) = PyInt 0
    /\ percent (PyFloat 0) = PyFloat 0.
Proof.
  intros H. exists (fundamentals symbol info).
  rewrite (fetch_answered _ _ _ H).
  repeat (split; [reflexivity|]).
  split; [apply truthy_mul100|]. split; [apply percent_falsy|].
  split; [intros z; unfold percent; cbn; by destruct (z =? 0)%Z|].
  split; [intros f; unfold percent; cbn; by destruct (PrimFloat.eqb f 0)|].
  repeat split; reflexivity.
Qed.

(** C10. The preferences are decided by truthiness: a forward P/E of
    exactly zero gives way to the trailing P/E, a current price of exactly
    zero to the regular market price; a truthy preferred value is kept. *)
Theorem zero_preferred_value_falls_back (symbol : string) (w : World)
    (info : gmap string PyVal) :
  ticker_info (requests w) symbol = inr info ->
  exists d,
    (fetch symbol w).1 = inr (Some d)
    /\ (is_zero (dict_get info "forwardPE") = true ->
        pe_ratio d = dict_get info "trailingPE")
    /\ (is_zero (dict_get info "currentPrice") = true ->
        price d = dict_get info "regularMarketPrice")
    /\ (truthy (dict_get info "forwardPE") = true ->
        pe_ratio d = dict_get info "forwardPE")
    /\ (truthy (dict_get info "currentPrice") = true ->
        price d = dict_get info "currentPrice").
Proof.
  intros H. exists (fundamentals symbol info).
  rewrite (fetch_answered _ _ _ H). split; [reflexivity|].
  cbn [pe_ratio price fundamentals]. unfold py_or.
  repeat split; intros Hv; try apply is_zero_falsy in Hv; by rewrite Hv.
Qed.

(** [save_to_database] on a record, case by case. *)
Lemma save_cases (d : StockData) (w : World) :
  save (Some d) w =
  match save_fault (sessions w) with
  | Some (ConnectError e) => (inl e, after_session w)
  | Some (ExecuteError e) => (inr false, after_session w)
  | None =>
      if forallb bindable (parameters d) then
        (inr true,
         insert_or_replace d (current_timestamp (sessions w)) (after_session w))
      else (inr false, after_session w)
  end.
Proof.
  unfold save_to_database, bind at 1, open_session. fold (after_session w).
  destruct (save_fault (sessions w)) as [[e|e]|]; try reflexivity.
  unfold try_except. by destruct (forallb bindable (parameters d)).
Qed.

Lemma save_committed (d : StockData) (w w' : World) :
  save (Some d) w = (inr true, w') ->
  w' = insert_or_replace d (current_timestamp (sessions w)) (after_session w).
Proof.
  rewrite save_cases.
  destruct (save_fault (sessions w)) as [[e|e]|]; try discriminate.
  destruct (forallb bindable (parameters d)); [|discriminate]. congruence.
Qed.

Lemma rows_of_besides (s : string) (table : list Row) :
  rows_of s (rows_besides s table) = [].
Proof.
  unfold rows_of, rows_besides. induction table as [|r table IH]; [done|].
  rewrite (filter_cons (fun r => symbol (row_data r) <> s)).
  case_decide; [|done].
  rewrite (filter_cons (fun r => symbol (row_data r) = s)).
  by case_decide.
Qed.

Lemma rows_besides_besides (s : string) (table : list Row) :
  rows_besides s (rows_besides s table) = rows_besides s table.
Proof.
  unfold rows_besides. induction table as [|r table IH]; [done|].
  rewrite (filter_cons (fun r => symbol (row_data r) <> s)).
  case_decide; [|done].
  rewrite (filter_cons (fun r => symbol (row_data r) <> s)).
  case_decide; [|done]. by rewrite IH.
Qed.

(** After INSERT OR REPLACE the symbol has one row, the new one. *)
Lemma insert_or_replace_rows_of (d : StockData) (now : string) (w : World) :
  exists id,
    rows_of (symbol d) (stocks_table (insert_or_replace d now w))
    = [MkRow id d now].
Proof.
  eexists. unfold insert_or_replace. cbn [stocks_table].
  fold (rows_besides (symbol d) (stocks_table w)).
  unfold rows_of. rewrite filter_app.
  fold (rows_of (symbol d) (rows_besides (symbol d) (stocks_table w))).
  rewrite rows_of_besides.
  rewrite (filter_cons (fun r => symbol (row_data r) = symbol d)).
  by case_decide.
Qed.

(** The rows of the other symbols stay. *)
Lemma insert_or_replace_rows_besides (d : StockData) (now : string) (w : World) :
  rows_besides (symbol d) (stocks_table (insert_or_replace d now w))
  = rows_besides (symbol d) (stocks_table w).
Proof.
  unfold insert_or_replace. cbn [stocks_table].
  fold (rows_besides (symbol d) (stocks_table w)).
  unfold rows_besides at 1. rewrite filter_app.
  fold (rows_besides (symbol d) (rows_besides (symbol d) (stocks_table w))).
  rewrite rows_besides_besides.
  rewrite (filter_cons (fun r => symbol (row_data r) <> symbol d)).
  case_decide; [done|]. cbn. by rewrite app_nil_r.
Qed.

(** INSERT OR REPLACE keeps the symbols unique. *)
Lemma insert_or_replace_unique (d : StockData) (now : string) (w : World) :
  unique_symbols (stocks_table w) ->
  unique_symbols (stocks_table (insert_or_replace d now w)).
Proof.
  unfold unique_symbols, insert_or_replace. cbn [stocks_table]. intros Hu.
  rewrite fmap_app. apply NoDup_app. split; [|split].
  - eapply sublist_NoDup; [exact Hu|]. apply fmap_sublist, sublist_filter.
  - intros s Hs Hin. apply list_elem_of_fmap in Hs as (r & -> & Hr).
    apply list_elem_of_filter in Hr as [Hne _].
    apply list_elem_of_singleton in Hin. done.
  - apply NoDup_singleton.
Qed.

(** C8. Two saves of records with the same symbol leave one row for it,
    holding the second record whole; the rows of the other symbols are
    those from before, and the symbols stay unique. *)
Theorem upsert_replaces_row (d1 d2 : StockData) (w w1 w2 : World) :
  symbol d1 = symbol d2 ->
  save (Some d1) w = (inr true, w1) ->
  save (Some d2) w1 = (inr true, w2) ->
  (exists id now, rows_of (symbol d2) (stocks_table w2) = [MkRow id d2 now])
  /\ rows_besides (symbol d2) (stocks_table w2)
     = rows_besides (symbol d2) (stocks_table w)
  /\ (unique_symbols (stocks_table w) -> unique_symbols (stocks_table w2)).
Proof.
  intros Hsym H1 H2.
  apply save_committed in H1. apply save_committed in H2.
  split; [|split].
  - rewrite H2.
    destruct (insert_or_replace_rows_of d2
                (current_timestamp (sessions w1)) (after_session w1)) as [id Hid].
    by exists id, (current_timestamp (sessions w1)).
  - rewrite H2, insert_or_replace_rows_besides. cbn [after_session stocks_table].
    rewrite H1, <- Hsym, insert_or_replace_rows_besides. reflexivity.
  - intros Hu. rewrite H2. apply insert_or_replace_unique.
    cbn [after_session stocks_table]. rewrite H1.
    by apply insert_or_replace_unique.
Qed.

(** One attempt whose provider request raises: nothing is saved, nothing is
    slept, and the failure is counted on the last attempt only. *)
Lemma attempt_once_refused (symbol : string) (delay attempt : Z) (c : Counts)
    (w : World) (e : Exn) :
  ticker_info (requests w) symbol = inl e ->
  attempt_once ticker_info save_fault current_timestamp symbol delay attempt c w
  = (inr (Next,
          if (attempt =? max_retries - 1)%Z
          then MkCounts (successful c) (failed c + 1) else c),
     after_request w).
Proof.
  intros H. unfold attempt_once, try_except, bind at 1.
  rewrite (fetch_refused _ _ _ H). unfold bind, ret.
  by destruct (attempt =? max_retries - 1)%Z.
Qed.

Lemma sleep_ok (seconds : Z) (w : World) :
  (0 <= seconds)%Z -> sleep seconds w = (inr tt, after_sleep seconds w).
Proof.
  intros H. unfold sleep. by destruct (Z.ltb_spec seconds 0); [lia|].
Qed.

(** C5. A symbol whose provider request raises on all three attempts gets
    exactly three attempts, counts as one failure and lets the loop go on
    with the next symbol; between those attempts nothing is slept: the one
    sleep is that of [delay] seconds after the last attempt. *)
Theorem failed_fetches_retry_without_wait (delay : Z) (symbol : string)
    (rest : list string) (c : Counts) (w : World) :
  (0 <= delay)%Z ->
  (forall k, k < 3 -> exists e, ticker_info (k + requests w) symbol = inl e) ->
  let c' := MkCounts (successful c) (failed c + 1) in
  let w' := after_sleep delay (after_request (after_request (after_request w))) in
  process_symbol ticker_info save_fault current_timestamp delay symbol c w
  = (inr (Next, c'), w')
  /\ requests w' = 3 + requests w
  /\ slept w' = slept w ++ [delay]
  /\ stocks_table w' = stocks_table w
  /\ for_each (symbol :: rest)
       (process_symbol ticker_info save_fault current_timestamp delay) c w
     = for_each rest
         (process_symbol ticker_info save_fault current_timestamp delay) c' w'.
Proof.
  intros Hdelay Hfail c' w'.
  destruct (Hfail 0 ltac:(lia)) as [e0 H0].
  destruct (Hfail 1 ltac:(lia)) as [e1 H1].
  destruct (Hfail 2 ltac:(lia)) as [e2 H2].
  assert (Hsym : process_symbol ticker_info save_fault current_timestamp
                   delay symbol c w = (inr (Next, c'), w')).
  { unfold process_symbol.
    change (py_range 0 max_retries 1) with (@inr Exn _ [0; 1; 2]%Z).
    unfold lift. unfold bind at 1. unfold ret at 1. unfold bind at 1.
    cbn [for_each]. unfold bind at 1.
    rewrite (attempt_once_refused symbol delay 0 c w e0 H0).
    change (0 =? max_retries - 1)%Z with false. cbn match.
    unfold bind at 1.
    rewrite (attempt_once_refused symbol delay 1 c (after_request w) e1 H1).
    change (1 =? max_retries - 1)%Z with false. cbn match.
    unfold bind at 1.
    rewrite (attempt_once_refused symbol delay 2 c
               (after_request (after_request w)) e2 H2).
    change (2 =? max_retries - 1)%Z with true. cbn match. unfold ret at 1.
    unfold bind at 1. by rewrite (sleep_ok _ _ Hdelay). }
  split; [exact Hsym|]. repeat split.
  cbn [for_each]. unfold bind at 1. by rewrite Hsym.
Qed.

Abbreviation attempt := (attempt_once ticker_info save_fault current_timestamp).
Abbreviation one_symbol :=
  (process_symbol ticker_info save_fault current_timestamp).

(** The sibling path: when [sqlite3.connect] raises in an attempt that is
    not the last, the handler sleeps [delay * 2] seconds. *)
Lemma attempt_once_connect_error (symbol : string) (delay n : Z) (c : Counts)
    (w : World) (info : gmap string PyVal) (e : Exn) :
  (0 <= delay)%Z -> (n < max_retries - 1)%Z ->
  ticker_info (requests w) symbol = inr info ->
  save_fault (sessions w) = Some (ConnectError e) ->
  attempt symbol delay n c w
  = (inr (Next, c), after_sleep (delay * 2) (after_session (after_request w))).
Proof.
  intros Hdelay Hn Hinfo Hfault. unfold attempt_once, try_except, bind at 1.
  rewrite (fetch_answered _ _ _ Hinfo). unfold bind at 1.
  rewrite save_cases. cbn [after_request sessions]. rewrite Hfault.
  destruct (Z.ltb_spec n (max_retries - 1)) as [_|?]; [|lia].
  unfold bind. rewrite sleep_ok by lia. reflexivity.
Qed.

(** Every attempt makes one provider request and ends normally: it either
    breaks out with one more success, or goes on, with one more failure
    when it was the last. *)
Lemma attempt_once_outcome (symbol : string) (delay n : Z) (c : Counts)
    (w : World) :
  (0 <= delay)%Z -> (n <= max_retries - 1)%Z ->
  exists flow c' w',
    attempt symbol delay n c w = (inr (flow, c'), w')
    /\ requests w' = S (requests w)
    /\ (flow = Break /\ c' = MkCounts (successful c + 1) (failed c)
        \/ flow = Next
           /\ c' = if (n =? max_retries - 1)%Z
                   then MkCounts (successful c) (failed c + 1) else c).
Proof.
  intros Hdelay Hn.
  destruct (ticker_info (requests w) symbol) as [e|info] eqn:Hinfo.
  { rewrite (attempt_once_refused _ _ _ _ _ _ Hinfo).
    eexists _, _, _. split; [reflexivity|]. split; [reflexivity|]. by right. }
  unfold attempt_once, try_except, bind at 1.
  rewrite (fetch_answered _ _ _ Hinfo). unfold bind at 1.
  rewrite save_cases. cbn [after_request sessions].
  destruct (save_fault (sessions w)) as [[e|e]|].
  - destruct (Z.ltb_spec n (max_retries - 1)) as [Hlt|Hge].
    + unfold bind. rewrite sleep_ok by lia.
      eexists _, _, _. split; [reflexivity|]. split; [reflexivity|]. right.
      split; [reflexivity|].
      by destruct (Z.eqb_spec n (max_retries - 1)); [lia|].
    + eexists _, _, _. split; [reflexivity|]. split; [reflexivity|]. right.
      split; [reflexivity|].
      by destruct (Z.eqb_spec n (max_retries - 1)); [|lia].
  - destruct (n =? max_retries - 1)%Z; eexists _, _, _;
      (split; [reflexivity|]); (split; [reflexivity|]); by right.
  - destruct (forallb bindable (parameters (fundamentals symbol info))).
    + eexists _, _, _. split; [reflexivity|]. split; [reflexivity|]. by left.
    + destruct (n =? max_retries - 1)%Z; eexists _, _, _;
        (split; [reflexivity|]); (split; [reflexivity|]); by right.
Qed.

(** The retry loop ends normally after one to three provider requests and
    adds one to exactly one of the two counts. *)
Lemma retry_loop_accounting (symbol : string) (delay : Z) (c : Counts)
    (w : World) :
  (0 <= delay)%Z ->
  exists c' w',
    for_each [0; 1; 2]%Z (attempt symbol delay) c w = (inr c', w')
    /\ (successful c' + failed c' = successful c + failed c + 1)%Z
    /\ requests w < requests w' <= 3 + requests w.
Proof.
  intros Hdelay. cbn [for_each].
  destruct (attempt_once_outcome symbol delay 0 c w Hdelay ltac:(done))
    as (f0 & c0 & w0 & E0 & R0 & [[-> ->]|[-> ->]]);
    unfold bind at 1; rewrite E0.
  { eexists _, _. split; [reflexivity|]. cbn. lia. }
  change (0 =? max_retries - 1)%Z with false. cbn match.
  destruct (attempt_once_outcome symbol delay 1 c w0 Hdelay ltac:(done))
    as (f1 & c1 & w1 & E1 & R1 & [[-> ->]|[-> ->]]);
    unfold bind at 1; rewrite E1.
  { eexists _, _. split; [reflexivity|]. cbn. lia. }
  change (1 =? max_retries - 1)%Z with false. cbn match.
  destruct (attempt_once_outcome symbol delay 2 c w1 Hdelay ltac:(done))
    as (f2 & c2 & w2 & E2 & R2 & [[-> ->]|[-> ->]]);
    unfold bind at 1; rewrite E2.
  { eexists _, _. split; [reflexivity|]. cbn. lia. }
  change (2 =? max_retries - 1)%Z with true. cbn match.
  eexists _, _. split; [reflexivity|]. cbn. lia.
Qed.

(** Whatever the provider and the database do, a symbol is dealt with
    after at most three requests and the loop over the batch goes on. *)
Lemma process_symbol_accounting (symbol : string) (delay : Z) (c : Counts)
    (w : World) :
  (0 <= delay)%Z ->
  exists c' w',
    one_symbol delay symbol c w = (inr (Next, c'), w')
    /\ (successful c' + failed c' = successful c + failed c + 1)%Z
    /\ requests w < requests w' <= 3 + requests w.
Proof.
  intros Hdelay. unfold process_symbol.
  change (py_range 0 max_retries 1) with (@inr Exn _ [0; 1; 2]%Z).
  unfold lift. unfold bind at 1. unfold ret at 1. unfold bind at 1.
  destruct (retry_loop_accounting symbol delay c w Hdelay)
    as (c' & w' & E & Hsum & Hreq).
  rewrite E. unfold bind. rewrite (sleep_ok _ _ Hdelay).
  exists c', (after_sleep delay w'). split; [reflexivity|]. by split.
Qed.

(** A batch: every symbol is counted once, as a success or as a failure. *)
Lemma batch_accounting (batch : list string) (delay : Z) (c : Counts)
    (w : World) :
  (0 <= delay)%Z ->
  exists c' w',
    for_each batch (one_symbol delay) c w = (inr c', w')
    /\ (successful c' + failed c'
        = successful c + failed c + Z.of_nat (length batch))%Z
    /\ requests w' <= 3 * length batch + requests w.
Proof.
  intros Hdelay. revert c w.
  induction batch as [|symbol batch IH]; intros c w.
  - exists c, w. split; [reflexivity|]. cbn. lia.
  - cbn [for_each].
    destruct (process_symbol_accounting symbol delay c w Hdelay)
      as (c1 & w1 & E1 & Hsum1 & Hreq1).
    unfold bind at 1. rewrite E1.
    destruct (IH c1 w1) as (c2 & w2 & E2 & Hsum2 & Hreq2).
    exists c2, w2. split; [exact E2|]. cbn [length]. lia.
Qed.

(** *** The provider request *)

(** X9. [fetch_stock_data_yfinance] never raises: it makes one provider
    request and touches nothing else; it returns [None] exactly when the
    request raised, and otherwise a record that carries the symbol asked
    for. *)
Theorem fetch_never_raises (symbol : string) (w : World) :
  exists r,
    fetch symbol w = (inr r, after_request w)
    /\ (r = None <-> exists e, ticker_info (requests w) symbol = inl e)
    /\ (forall d, r = Some d -> Scraper.symbol d = symbol).
Proof.
  destruct (ticker_info (requests w) symbol) as [e|info] eqn:H.
  - exists None. rewrite (fetch_refused _ _ _ H).
    split; [reflexivity|]. split; [|discriminate]. split; eauto.
  - exists (Some (fundamentals symbol info)). rewrite (fetch_answered _ _ _ H).
    split; [reflexivity|]. split.
    + split; [discriminate|]. intros [e He]. discriminate.
    + intros d [= <-]. reflexivity.
Qed.

(** *** Saving *)

(** X10. A save that does not return [True] leaves the table and its
    AUTOINCREMENT counter as they were: this holds for [None], for an
    error at [connect], [execute] or [commit], and for a value that
    cannot be bound; without a record no session is opened at all. *)
Theorem failed_save_changes_nothing (stock_data : option StockData)
    (w w' : World) (r : Exn + bool) :
  save stock_data w = (r, w') ->
  r <> inr true ->
  stocks_table w' = stocks_table w
  /\ sqlite_sequence w' = sqlite_sequence w
  /\ (stock_data = None -> r = inr false /\ w' = w).
Proof.
  intros Hsave Hr. destruct stock_data as [d|].
  - rewrite save_cases in Hsave.
    destruct (save_fault (sessions w)) as [[e|e]|];
      [| |destruct (forallb bindable (parameters d))];
      injection Hsave as <- <-; try done.
  - injection Hsave as <- <-. done.
Qed.

(** X11. An integer outside the signed 64-bit range cannot be stored: a
    record that holds one is not saved, even with the database in order;
    [save_to_database] returns [False] and the table stays as it was. *)
Theorem oversized_integer_is_not_saved (d : StockData) (z : Z) (w : World) :
  In (PyInt z) (parameters d) ->
  (z < - 2 ^ 63 \/ 2 ^ 63 <= z)%Z ->
  save_fault (sessions w) = None ->
  save (Some d) w = (inr false, after_session w).
Proof.
  intros Hin Hz Hfault. rewrite save_cases, Hfault.
  destruct (forallb bindable (parameters d)) eqn:Hb; [|reflexivity].
  rewrite forallb_forall in Hb. specialize (Hb _ Hin). cbn [bindable] in Hb.
  apply andb_true_iff in Hb as [H1 H2]. lia.
Qed.

Lemma max_id_ge (floor : Z) (table : list Row) :
  (floor <= max_id floor table)%Z
  /\ forall r, In r table -> (row_id r <= max_id floor table)%Z.
Proof.
  unfold max_id. induction table as [|x table [IH1 IH2]]; cbn.
  - split; [lia|]. intros r [].
  - split; [lia|]. intros r [<-|Hr]; [lia|]. specialize (IH2 r Hr). lia.
Qed.

(** X12. A successful save never reuses an id: the row it writes gets an
    id above the counter and above the id of every row that was in the
    table, that of the replaced row included; the counter moves up to it,
    and the row carries the timestamp of the session. *)
Theorem saved_row_gets_fresh_id (d : StockData) (w w' : World) :
  save (Some d) w = (inr true, w') ->
  exists id,
    rows_of (symbol d) (stocks_table w')
    = [MkRow id d (current_timestamp (sessions w))]
    /\ sqlite_sequence w' = id
    /\ (sqlite_sequence w < id)%Z
    /\ forall r, In r (stocks_table w) -> (row_id r < id)%Z.
Proof.
  intros Hsave. apply save_committed in Hsave. subst w'.
  exists (max_id (sqlite_sequence w) (stocks_table w) + 1)%Z.
  destruct (max_id_ge (sqlite_sequence w) (stocks_table w)) as [Hfloor Hrows].
  split; [|split; [reflexivity|split; [lia|]]].
  - unfold insert_or_replace. cbn [stocks_table after_session sqlite_sequence].
    fold (rows_besides (symbol d) (stocks_table w)).
    unfold rows_of. rewrite filter_app.
    fold (rows_of (symbol d) (rows_besides (symbol d) (stocks_table w))).
    rewrite rows_of_besides.
    rewrite (filter_cons (fun r => symbol (row_data r) = symbol d)).
    by case_decide.
  - intros r Hr. specialize (Hrows r Hr). lia.
Qed.

(** *** Retries *)

(** The last attempt when [sqlite3.connect] raises: the failure is counted
    and nothing is slept. *)
Lemma attempt_once_connect_error_last (symbol : string) (delay : Z)
    (c : Counts) (w : World) (info : gmap string PyVal) (e : Exn) :
  ticker_info (requests w) symbol = inr info ->
  save_fault (sessions w) = Some (ConnectError e) ->
  attempt symbol delay (max_retries - 1) c w
  = (inr (Next, MkCounts (successful c) (failed c + 1)),
     after_session (after_request w)).
Proof.
  intros Hinfo Hfault. unfold attempt_once, try_except, bind at 1.
  rewrite (fetch_answered _ _ _ Hinfo). unfold bind at 1.
  rewrite save_cases. cbn [after_request sessions]. rewrite Hfault.
  reflexivity.
Qed.

(** X13. When the provider answers but [sqlite3.connect] raises in each of
    the three attempts, the retries are spaced: [delay * 2] seconds are
    slept after the first and after the second attempt, none after the
    third; the symbol counts as one failure and the loop goes on after the
    usual [delay] seconds. *)
Theorem connect_errors_retry_with_wait (delay : Z) (symbol : string)
    (c : Counts) (w : World) :
  (0 <= delay)%Z ->
  (forall k, k < 3 -> exists info, ticker_info (k + requests w) symbol = inr info) ->
  (forall k, k < 3 -> exists e, save_fault (k + sessions w) = Some (ConnectError e)) ->
  exists w',
    one_symbol delay symbol c w
    = (inr (Next, MkCounts (successful c) (failed c + 1)), w')
    /\ slept w' = slept w ++ [delay * 2; delay * 2; delay]%Z
    /\ requests w' = 3 + requests w
    /\ sessions w' = 3 + sessions w
    /\ stocks_table w' = stocks_table w.
Proof.
  intros Hdelay Hinfo Hfault.
  destruct (Hinfo 0 ltac:(lia)) as [i0 H0]. destruct (Hinfo 1 ltac:(lia)) as [i1 H1].
  destruct (Hinfo 2 ltac:(lia)) as [i2 H2].
  destruct (Hfault 0 ltac:(lia)) as [e0 F0]. destruct (Hfault 1 ltac:(lia)) as [e1 F1].
  destruct (Hfault 2 ltac:(lia)) as [e2 F2].
  set (w1 := after_sleep (delay * 2) (after_session (after_request w))).
  set (w2 := after_sleep (delay * 2) (after_session (after_request w1))).
  set (w3 := after_session (after_request w2)).
  exists (after_sleep delay w3).
  split; [|subst w3 w2 w1; cbn; rewrite <- !app_assoc; by repeat split].
  unfold process_symbol.
  change (py_range 0 max_retries 1) with (@inr Exn _ [0; 1; 2]%Z).
  unfold lift. unfold bind at 1. unfold ret at 1. unfold bind at 1.
  cbn [for_each]. unfold bind at 1.
  rewrite (attempt_once_connect_error symbol delay 0 c w i0 e0 Hdelay
             ltac:(done) H0 F0).
  fold w1. unfold bind at 1.
  rewrite (attempt_once_connect_error symbol delay 1 c w1 i1 e1 Hdelay
             ltac:(done) H1 F1).
  fold w2. unfold bind at 1.
  change 2%Z with (max_retries - 1)%Z.
  rewrite (attempt_once_connect_error_last symbol delay c w2 i2 e2 H2 F2).
  fold w3. unfold ret at 1. unfold bind at 1.
  by rewrite (sleep_ok _ _ Hdelay).
Qed.

(** Every attempt within the range, with what it did to the table: a
    success wrote the record fetched in this attempt, anything else left
    the table and its counter alone. *)
Lemma attempt_once_effect (symbol : string) (delay n : Z) (c : Counts)
    (w : World) :
  (0 <= delay)%Z -> (n <= max_retries - 1)%Z ->
  exists flow c' w',
    attempt symbol delay n c w = (inr (flow, c'), w')
    /\ requests w' = S (requests w)
    /\ (flow = Break /\ c' = MkCounts (successful c + 1) (failed c)
        /\ (exists info,
              ticker_info (requests w) symbol = inr info
              /\ w' = insert_or_replace (fundamentals symbol info)
                        (current_timestamp (sessions w))
                        (after_session (after_request w)))
        \/ flow = Next
           /\ c' = (if (n =? max_retries - 1)%Z
                    then MkCounts (successful c) (failed c + 1) else c)
           /\ stocks_table w' = stocks_table w
           /\ sqlite_sequence w' = sqlite_sequence w).
Proof.
  intros Hdelay Hn.
  destruct (ticker_info (requests w) symbol) as [e|info] eqn:Hinfo.
  { rewrite (attempt_once_refused _ _ _ _ _ _ Hinfo).
    eexists _, _, _. split; [reflexivity|]. split; [reflexivity|]. by right. }
  unfold attempt_once, try_except, bind at 1.
  rewrite (fetch_answered _ _ _ Hinfo). unfold bind at 1.
  rewrite save_cases. cbn [after_request sessions].
  destruct (save_fault (sessions w)) as [[e|e]|].
  - destruct (Z.ltb_spec n (max_retries - 1)) as [Hlt|Hge].
    + unfold bind. rewrite sleep_ok by lia.
      eexists _, _, _. split; [reflexivity|]. split; [reflexivity|]. right.
      split; [reflexivity|].
      by destruct (Z.eqb_spec n (max_retries - 1)); [lia|].
    + eexists _, _, _. split; [reflexivity|]. split; [reflexivity|]. right.
      split; [reflexivity|].
      by destruct (Z.eqb_spec n (max_retries - 1)); [|lia].
  - destruct (n =? max_retries - 1)%Z; eexists _, _, _;
      (split; [reflexivity|]); (split; [reflexivity|]); by right.
  - destruct (forallb bindable (parameters (fundamentals symbol info))).
    + eexists _, _, _. split; [reflexivity|]. split; [reflexivity|]. left.
      split; [reflexivity|]. split; [reflexivity|]. by exists info.
    + destruct (n =? max_retries - 1)%Z; eexists _, _, _;
        (split; [reflexivity|]); (split; [reflexivity|]); by right.
Qed.

(** What a successful attempt leaves in the table. *)
Lemma saved_table (symbol : string) (info : gmap string PyVal) (now : string)
    (w0 w : World) :
  stocks_table w0 = stocks_table w ->
  (exists id,
     rows_of symbol
       (stocks_table (insert_or_replace (fundamentals symbol info) now w0))
     = [MkRow id (fundamentals symbol info) now])
  /\ rows_besides symbol
       (stocks_table (insert_or_replace (fundamentals symbol info) now w0))
     = rows_besides symbol (stocks_table w).
Proof.
  intros Htable. split.
  - apply (insert_or_replace_rows_of (fundamentals symbol info) now w0).
  - rewrite <- Htable.
    apply (insert_or_replace_rows_besides (fundamentals symbol info) now w0).
Qed.

(** The retry loop, with what it did to the table. *)
Lemma retry_loop_effect (symbol : string) (delay : Z) (c : Counts) (w : World) :
  (0 <= delay)%Z ->
  exists c' w',
    for_each [0; 1; 2]%Z (attempt symbol delay) c w = (inr c', w')
    /\ (c' = MkCounts (successful c + 1) (failed c)
        /\ (exists k info id now,
              k < 3
              /\ ticker_info (k + requests w) symbol = inr info
              /\ rows_of symbol (stocks_table w')
                 = [MkRow id (fundamentals symbol info) now])
        /\ rows_besides symbol (stocks_table w')
           = rows_besides symbol (stocks_table w)
        \/ c' = MkCounts (successful c) (failed c + 1)
           /\ stocks_table w' = stocks_table w
           /\ requests w' = 3 + requests w).
Proof.
  intros Hdelay. cbn [for_each].
  destruct (attempt_once_effect symbol delay 0 c w Hdelay ltac:(done))
    as (f0 & c0 & w0 & E0 & R0 & [(-> & -> & info & Hi & ->)|(-> & -> & T0 & _)]);
    unfold bind at 1; rewrite E0.
  { eexists _, _. split; [reflexivity|]. left. split; [reflexivity|].
    destruct (saved_table symbol info (current_timestamp (sessions w))
                (after_session (after_request w)) w eq_refl) as [[id Hid] Hb].
    split; [|exact Hb]. exists 0, info, id; eexists. split; [lia|]. split; [exact Hi|exact Hid]. }
  change (0 =? max_retries - 1)%Z with false. cbn match.
  destruct (attempt_once_effect symbol delay 1 c w0 Hdelay ltac:(done))
    as (f1 & c1 & w1 & E1 & R1 & [(-> & -> & info & Hi & ->)|(-> & -> & T1 & _)]);
    unfold bind at 1; rewrite E1.
  { eexists _, _. split; [reflexivity|]. left. split; [reflexivity|].
    destruct (saved_table symbol info (current_timestamp (sessions w0))
                (after_session (after_request w0)) w T0) as [[id Hid] Hb].
    split; [|exact Hb]. exists 1, info, id; eexists. split; [lia|].
    split; [|exact Hid]. cbn [Nat.add]. by rewrite <- R0. }
  change (1 =? max_retries - 1)%Z with false. cbn match.
  destruct (attempt_once_effect symbol delay 2 c w1 Hdelay ltac:(done))
    as (f2 & c2 & w2 & E2 & R2 & [(-> & -> & info & Hi & ->)|(-> & -> & T2 & _)]);
    unfold bind at 1; rewrite E2.
  { eexists _, _. split; [reflexivity|]. left. split; [reflexivity|].
    assert (Ht : stocks_table (after_session (after_request w1)) = stocks_table w)
      by (cbn; congruence).
    destruct (saved_table symbol info (current_timestamp (sessions w1))
                (after_session (after_request w1)) w Ht) as [[id Hid] Hb].
    split; [|exact Hb]. exists 2, info, id; eexists. split; [lia|].
    split; [|exact Hid]. cbn [Nat.add]. by rewrite <- R0, <- R1. }
  change (2 =? max_retries - 1)%Z with true. cbn match.
  eexists _, _. split; [reflexivity|]. right. split; [reflexivity|].
  split; [congruence|]. rewrite R2, R1, R0. reflexivity.
Qed.

(** X14. With a delay that is not negative, a symbol is dealt with in one
    of two ways, whatever the provider and the database do.  Either it
    counts as a success: then the table holds one row for it, with the
    record built from the provider's answer to one of at most three
    requests, and the rows of the other symbols are those from before.
    Or it counts as a failure after three requests: then the table is as
    before, so a row stored earlier for the symbol is kept. *)
Theorem symbol_is_saved_or_left_alone (delay : Z) (symbol : string)
    (c : Counts) (w : World) :
  (0 <= delay)%Z ->
  exists c' w',
    one_symbol delay symbol c w = (inr (Next, c'), w')
    /\ (c' = MkCounts (successful c + 1) (failed c)
        /\ (exists k info id now,
              k < 3
              /\ ticker_info (k + requests w) symbol = inr info
              /\ rows_of symbol (stocks_table w')
                 = [MkRow id (fundamentals symbol info) now])
        /\ rows_besides symbol (stocks_table w')
           = rows_besides symbol (stocks_table w)
        \/ c' = MkCounts (successful c) (failed c + 1)
           /\ stocks_table w' = stocks_table w
           /\ requests w' = 3 + requests w).
Proof.
  intros Hdelay. unfold process_symbol.
  change (py_range 0 max_retries 1) with (@inr Exn _ [0; 1; 2]%Z).
  unfold lift. unfold bind at 1. unfold ret at 1. unfold bind at 1.
  destruct (retry_loop_effect symbol delay c w Hdelay) as (c' & w' & E & H).
  rewrite E. unfold bind. rewrite (sleep_ok _ _ Hdelay).
  exists c', (after_sleep delay w'). split; [reflexivity|]. exact H.
Qed.

(** A symbol adds one to exactly one of the two counts. *)
Lemma symbol_step_counts (delay : Z) (symbol : string) (c : Counts) (w : World) :
  (0 <= delay)%Z ->
  exists c' w',
    one_symbol delay symbol c w = (inr (Next, c'), w')
    /\ (c' = MkCounts (successful c + 1) (failed c)
        \/ c' = MkCounts (successful c) (failed c + 1)).
Proof.
  intros Hdelay. unfold process_symbol.
  change (py_range 0 max_retries 1) with (@inr Exn _ [0; 1; 2]%Z).
  unfold lift. unfold bind at 1. unfold ret at 1. unfold bind at 1.
  destruct (retry_loop_effect symbol delay c w Hdelay) as (c' & w' & E & H).
  rewrite E. unfold bind. rewrite (sleep_ok _ _ Hdelay).
  exists c', (after_sleep delay w'). split; [reflexivity|].
  destruct H as [[-> _]|[-> _]]; auto.
Qed.

(** *** The whole run *)

Abbreviation one_batch :=
  (process_batch ticker_info save_fault current_timestamp).
Abbreviation scrape := (scrape_stocks ticker_info save_fault current_timestamp).

(** A symbol adds one to one of the counts and makes at most three
    requests. *)
Lemma process_symbol_step (delay : Z) (symbol : string) (c : Counts) (w : World) :
  (0 <= delay)%Z ->
  exists c' w',
    one_symbol delay symbol c w = (inr (Next, c'), w')
    /\ (c' = MkCounts (successful c + 1) (failed c)
        \/ c' = MkCounts (successful c) (failed c + 1))
    /\ requests w' <= 3 + requests w.
Proof.
  intros Hdelay.
  destruct (process_symbol_accounting symbol delay c w Hdelay)
    as (c1 & w1 & E1 & _ & Hreq).
  destruct (symbol_step_counts delay symbol c w Hdelay) as (c2 & w2 & E2 & Hc).
  rewrite E1 in E2. injection E2 as <- <-.
  exists c1, w1. split; [exact E1|]. split; [exact Hc|lia].
Qed.

Lemma batch_run (batch : list string) (delay : Z) (c : Counts) (w : World) :
  (0 <= delay)%Z ->
  exists c' w',
    for_each batch (one_symbol delay) c w = (inr c', w')
    /\ (successful c <= successful c')%Z /\ (failed c <= failed c')%Z
    /\ (successful c' + failed c'
        = successful c + failed c + Z.of_nat (length batch))%Z
    /\ requests w' <= 3 * length batch + requests w.
Proof.
  intros Hdelay. revert c w.
  induction batch as [|symbol batch IH]; intros c w.
  - exists c, w. split; [reflexivity|]. cbn. lia.
  - cbn [for_each].
    destruct (process_symbol_step delay symbol c w Hdelay)
      as (c1 & w1 & E1 & Hc1 & Hreq1).
    unfold bind at 1. rewrite E1.
    destruct (IH c1 w1) as (c2 & w2 & E2 & Hs & Hf & Hsum & Hreq2).
    exists c2, w2. split; [exact E2|]. cbn [length].
    destruct Hc1 as [->| ->]; cbn in *; lia.
Qed.

Lemma process_batch_run (stocks : list string) (batch_size delay start : Z)
    (c : Counts) (w : World) :
  (0 <= delay)%Z ->
  exists c' w',
    one_batch stocks batch_size delay start c w = (inr (Next, c'), w')
    /\ (successful c <= successful c')%Z /\ (failed c <= failed c')%Z
    /\ (successful c' + failed c'
        = successful c + failed c
          + Z.of_nat (length (batch_of stocks batch_size start)))%Z
    /\ requests w' <= 3 * length (batch_of stocks batch_size start) + requests w.
Proof.
  intros Hdelay. unfold process_batch. fold (batch_of stocks batch_size start).
  destruct (batch_run (batch_of stocks batch_size start) delay c w Hdelay)
    as (c' & w' & E & H).
  unfold bind at 1. rewrite E. unfold bind at 1.
  destruct (_ <? _)%Z.
  - rewrite sleep_ok by lia. exists c', (after_sleep (delay * 3) w').
    split; [reflexivity|exact H].
  - exists c', w'. split; [reflexivity|exact H].
Qed.

Lemma batches_run (stocks : list string) (batch_size delay : Z)
    (starts : list Z) (c : Counts) (w : World) :
  (0 <= delay)%Z ->
  exists c' w',
    for_each starts (one_batch stocks batch_size delay) c w = (inr c', w')
    /\ (successful c <= successful c')%Z /\ (failed c <= failed c')%Z
    /\ (successful c' + failed c'
        = successful c + failed c
          + Z.of_nat (batched stocks batch_size starts))%Z
    /\ requests w' <= 3 * batched stocks batch_size starts + requests w.
Proof.
  intros Hdelay. revert c w.
  induction starts as [|start starts IH]; intros c w.
  - exists c, w. split; [reflexivity|]. cbn. lia.
  - cbn [for_each].
    destruct (process_batch_run stocks batch_size delay start c w Hdelay)
      as (c1 & w1 & E1 & Hs1 & Hf1 & Hsum1 & Hreq1).
    unfold bind at 1. rewrite E1.
    destruct (IH c1 w1) as (c2 & w2 & E2 & Hs & Hf & Hsum & Hreq2).
    exists c2, w2. split; [exact E2|]. cbn [batched foldr].
    fold (batched stocks batch_size starts). lia.
Qed.

Lemma py_slice_length {A} (l : list A) (a b : Z) :
  (0 <= a)%Z -> (0 <= b)%Z ->
  length (py_slice l (Some a) (Some b))
  = Z.to_nat (Z.min b (Z.of_nat (length l)) - Z.min a (Z.of_nat (length l))).
Proof.
  intros Ha Hb. unfold py_slice, slice_index.
  destruct (Z.ltb_spec a 0); [lia|]. destruct (Z.ltb_spec b 0); [lia|].
  rewrite length_take, length_drop. lia.
Qed.

Lemma batch_of_length (stocks : list string) (batch_size start : Z) :
  (0 < batch_size)%Z -> (0 <= start)%Z ->
  length (batch_of stocks batch_size start)
  = Z.to_nat (Z.min (start + batch_size) (Z.of_nat (length stocks))
              - Z.min start (Z.of_nat (length stocks))).
Proof.
  intros Hb Hs. unfold batch_of. rewrite py_slice_length by lia. lia.
Qed.

(** Consecutive batches cover consecutive stretches of the list. *)
Lemma batched_consecutive (stocks : list string) (batch_size : Z) (a k : nat) :
  (0 < batch_size)%Z ->
  batched stocks batch_size
    (map (fun i => 0 + batch_size * Z.of_nat i)%Z (seq a k))
  = Z.to_nat (Z.min (batch_size * Z.of_nat (a + k)) (Z.of_nat (length stocks))
              - Z.min (batch_size * Z.of_nat a) (Z.of_nat (length stocks))).
Proof.
  intros Hb. revert a. induction k as [|k IH]; intros a.
  - cbn. replace (a + 0) with a by lia. lia.
  - cbn [seq map batched foldr].
    fold (batched stocks batch_size
            (map (fun i => 0 + batch_size * Z.of_nat i)%Z (seq (S a) k))).
    rewrite IH, batch_of_length by lia.
    replace (Z.of_nat (S a + k)) with (Z.of_nat (a + S k)) by lia.
    replace (batch_size * Z.of_nat (S a))%Z
      with (batch_size * Z.of_nat a + batch_size)%Z by lia.
    assert (batch_size * Z.of_nat a + batch_size
            <= batch_size * Z.of_nat (a + S k))%Z by nia.
    assert (0 <= batch_size * Z.of_nat a)%Z by nia.
    lia.
Qed.

(** With a positive step the batches cover the whole list. *)
Lemma py_range_batches (stocks : list string) (batch_size : Z) :
  (0 < batch_size)%Z ->
  exists starts,
    py_range 0 (Z.of_nat (length stocks)) batch_size = inr starts
    /\ batched stocks batch_size starts = length stocks.
Proof.
  intros Hb. unfold py_range.
  destruct (Z.eqb_spec batch_size 0) as [?|_]; [lia|].
  destruct (Z.ltb_spec 0 batch_size) as [_|?]; [|lia].
  eexists. split; [reflexivity|].
  rewrite batched_consecutive by done.
  set (total := Z.of_nat (length stocks)).
  set (q := ((total - 0 + batch_size - 1) / batch_size)%Z).
  assert (0 <= q)%Z by (apply Z.div_pos; lia).
  assert (total - 0 + batch_size - 1 < batch_size * Z.succ q)%Z
    by (apply Z.mul_succ_div_gt; lia).
  replace (Z.of_nat (0 + Z.to_nat q)) with q by lia.
  assert (total <= batch_size * q)%Z by lia.
  lia.
Qed.

Lemma scrape_counts (stocks : list string) (batch_size delay : Z) (w : World) :
  (0 < batch_size)%Z -> (0 <= delay)%Z ->
  exists done missed w',
    scrape stocks batch_size delay w = (inr (done, missed), w')
    /\ (0 <= done)%Z /\ (0 <= missed)%Z
    /\ (done + missed = Z.of_nat (length stocks))%Z
    /\ requests w' <= 3 * length stocks + requests w.
Proof.
  intros Hb Hdelay. unfold scrape_stocks.
  destruct (py_range_batches stocks batch_size Hb) as (starts & -> & Hcover).
  unfold lift. unfold bind at 1. unfold ret at 1. unfold bind at 1.
  destruct (batches_run stocks batch_size delay starts (MkCounts 0 0) w Hdelay)
    as (c' & w' & E & Hs & Hf & Hsum & Hreq).
  rewrite E. exists (successful c'), (failed c'), w'.
  split; [reflexivity|]. rewrite Hcover in Hsum, Hreq. cbn in *. lia.
Qed.

(** X15. With a positive batch size and a delay that is not negative, a
    run ends normally, whatever the provider and the database do: every
    symbol of the list is counted once, as a success or as a failure, so
    the two counts are not negative and add up to the number of symbols,
    and at most three requests per symbol are made.  For
    [scrape_all_stocks] the counts add up to 165, the length of the
    symbol list, which the default count of 200 does not cut. *)
Theorem every_symbol_is_counted_once (stocks : list string)
    (batch_size delay : Z) (w : World) :
  (0 < batch_size)%Z -> (0 <= delay)%Z ->
  (exists done missed w',
     scrape stocks batch_size delay w = (inr (done, missed), w')
     /\ (0 <= done)%Z /\ (0 <= missed)%Z
     /\ (done + missed = Z.of_nat (length stocks))%Z
     /\ requests w' <= 3 * length stocks + requests w)
  /\ (exists done missed w',
        scrape_all_stocks ticker_info save_fault current_timestamp
          batch_size delay w = (inr (done, missed), w')
        /\ (0 <= done)%Z /\ (0 <= missed)%Z
        /\ (done + missed = 165)%Z
        /\ requests w' <= 495 + requests w).
Proof.
  intros Hb Hdelay. split; [by apply scrape_counts|].
  unfold scrape_all_stocks.
  destruct (scrape_counts (get_nse_top_stocks 200) batch_size delay w Hb Hdelay)
    as (done & missed & w' & E & Hd & Hm & Hsum & Hreq).
  exists done, missed, w'. split; [exact E|].
  change (length (get_nse_top_stocks 200)) with 165 in Hsum, Hreq. lia.
Qed.

(** *** What a run keeps *)

Lemma preserves_ret {A} (P : World -> Prop) (a : A) : preserves P (ret a).
Proof. by intros w Hw. Qed.

Lemma preserves_raise {A} (P : World -> Prop) (e : Exn) :
  preserves P (@raise A e).
Proof. by intros w Hw. Qed.

Lemma preserves_lift {A} (P : World -> Prop) (r : Exn + A) :
  preserves P (lift r).
Proof. destruct r; [apply preserves_raise|apply preserves_ret]. Qed.

Lemma preserves_bind {A B} (P : World -> Prop) (m : M A) (k : A -> M B) :
  preserves P m -> (forall a, preserves P (k a)) -> preserves P (bind m k).
Proof.
  intros Hm Hk w Hw. unfold bind. specialize (Hm w Hw).
  destruct (m w) as [[e|a] w1]; [exact Hm|]. by apply Hk.
Qed.

Lemma preserves_try {A} (P : World -> Prop) (m : M A) (h : Exn -> M A) :
  preserves P m -> (forall e, preserves P (h e)) -> preserves P (try_except m h).
Proof.
  intros Hm Hh w Hw. unfold try_except. specialize (Hm w Hw).
  destruct (m w) as [[e|a] w1]; [by apply Hh|exact Hm].
Qed.

Lemma preserves_for_each {A S} (P : World -> Prop) (items : list A)
    (body : A -> S -> M (Flow * S)) (s : S) :
  (forall x s', preserves P (body x s')) -> preserves P (for_each items body s).
Proof.
  intros Hbody. revert s. induction items as [|x items IH]; intros s.
  - apply preserves_ret.
  - cbn [for_each]. apply preserves_bind; [apply Hbody|].
    intros [[|] s']; [apply IH|apply preserves_ret].
Qed.

(** The property that no symbol has two rows. *)
Abbreviation unique := (fun w : World => unique_symbols (stocks_table w)).

Lemma preserves_sleep (seconds : Z) : preserves unique (sleep seconds).
Proof. intros w Hw. unfold sleep. by destruct (_ <? _)%Z. Qed.

Lemma preserves_fetch (symbol : string) : preserves unique (fetch symbol).
Proof.
  intros w Hw. destruct (ticker_info (requests w) symbol) as [e|info] eqn:H.
  - by rewrite (fetch_refused _ _ _ H).
  - by rewrite (fetch_answered _ _ _ H).
Qed.

Lemma preserves_save (stock_data : option StockData) :
  preserves unique (save stock_data).
Proof.
  intros w Hw. destruct stock_data as [d|]; [|exact Hw].
  rewrite save_cases.
  destruct (save_fault (sessions w)) as [[e|e]|]; try exact Hw.
  destruct (forallb bindable (parameters d)); [|exact Hw].
  by apply insert_or_replace_unique.
Qed.

Lemma preserves_process_symbol (delay : Z) (symbol : string) (c : Counts) :
  preserves unique (one_symbol delay symbol c).
Proof.
  unfold process_symbol. apply preserves_bind; [apply preserves_lift|].
  intros attempts. apply preserves_bind.
  - apply preserves_for_each. intros n c'. unfold attempt_once.
    apply preserves_try.
    + apply preserves_bind; [apply preserves_fetch|]. intros [d|].
      * apply preserves_bind; [apply preserves_save|].
        intros [|]; [apply preserves_ret|].
        destruct (_ =? _)%Z; apply preserves_ret.
      * apply preserves_bind; [apply preserves_ret|].
        intros [|]; [apply preserves_ret|].
        destruct (_ =? _)%Z; apply preserves_ret.
    + intros e. destruct (_ <? _)%Z; [|apply preserves_ret].
      apply preserves_bind; [apply preserves_sleep|].
      intros _. apply preserves_ret.
  - intros c'. apply preserves_bind; [apply preserves_sleep|].
    intros _. apply preserves_ret.
Qed.

(** X16. A run never leaves two rows for one symbol: if the symbols of the
    table are distinct before [scrape_all_stocks], they are distinct
    after it, for every batch size and delay and however the run ends,
    with an error included. *)
Theorem run_keeps_symbols_unique (stocks : list string) (batch_size delay : Z)
    (w : World) :
  unique_symbols (stocks_table w) ->
  unique_symbols (stocks_table (scrape stocks batch_size delay w).2)
  /\ unique_symbols
       (stocks_table
          (scrape_all_stocks ticker_info save_fault current_timestamp
             batch_size delay w).2).
Proof.
  assert (H : forall l, preserves unique (scrape l batch_size delay)).
  { intros l. unfold scrape_stocks.
    apply preserves_bind; [apply preserves_lift|]. intros starts.
    apply preserves_bind; [|intros c; apply preserves_ret].
    apply preserves_for_each. intros start c. unfold process_batch.
    apply preserves_bind.
    - apply preserves_for_each. intros symbol c'.
      apply preserves_process_symbol.
    - intros c'. apply preserves_bind; [|intros _; apply preserves_ret].
      destruct (_ <? _)%Z; [apply preserves_sleep|apply preserves_ret]. }
  intros Hw. split; [by apply H|]. unfold scrape_all_stocks. by apply H.
Qed.

Lemma scrape_without_batches (stocks : list string) (batch_size delay : Z)
    (w : World) :
  (batch_size = 0%Z ->
   scrape stocks batch_size delay w
   = (inl (MkExn "range() arg 3 must not be zero"), w))
  /\ ((batch_size < 0)%Z ->
      scrape stocks batch_size delay w = (inr (0, 0)%Z, w)).
Proof.
  split.
  - intros ->. reflexivity.
  - intros Hneg. unfold scrape_stocks, py_range.
    destruct (Z.eqb_spec batch_size 0) as [?|_]; [lia|].
    destruct (Z.ltb_spec 0 batch_size) as [?|_]; [lia|].
    set (len := ((0 - Z.of_nat (length stocks) - batch_size - 1)
                 / - batch_size)%Z).
    assert (Hlen : (len <= 0)%Z).
    { subst len.
      assert ((0 - Z.of_nat (length stocks) - batch_size - 1) / - batch_size
              < 1)%Z; [|lia].
      apply Z.div_lt_upper_bound; lia. }
    replace (Z.to_nat len) with 0 by lia. reflexivity.
Qed.

(** X17. The batch size is not checked: with a batch size of zero
    [scrape_all_stocks] raises the [ValueError] of [range] before any
    request, and with a negative one it returns (0, 0) without a single
    request, as if there were no symbols. *)
Theorem batch_size_is_not_checked (batch_size delay : Z) (w : World) :
  (batch_size = 0%Z ->
   scrape_all_stocks ticker_info save_fault current_timestamp batch_size delay w
   = (inl (MkExn "range() arg 3 must not be zero"), w))
  /\ ((batch_size < 0)%Z ->
      scrape_all_stocks ticker_info save_fault current_timestamp batch_size
        delay w
      = (inr (0, 0)%Z, w)).
Proof.
  unfold scrape_all_stocks. apply scrape_without_batches.
Qed.

(** *** A negative delay *)

Lemma sleep_negative (seconds : Z) (w : World) :
  (seconds < 0)%Z -> sleep seconds w = (inl sleep_error, w).
Proof.
  intros H. unfold sleep. by destruct (Z.ltb_spec seconds 0); [|lia].
Qed.

Lemma attempt_once_negative (symbol : string) (delay n : Z) (c : Counts)
    (w : World) :
  (delay < 0)%Z ->
  exists w',
    requests w' = S (requests w)
    /\ (attempt symbol delay n c w = (inl sleep_error, w')
        \/ exists flow c', attempt symbol delay n c w = (inr (flow, c'), w')).
Proof.
  intros Hdelay.
  destruct (attempt symbol delay n c w) as [res w'] eqn:E. exists w'.
  destruct (ticker_info (requests w) symbol) as [e|info] eqn:Hinfo.
  { rewrite (attempt_once_refused _ _ _ _ _ _ Hinfo) in E.
    injection E as <- <-. split; [reflexivity|]. right. eauto. }
  unfold attempt_once, try_except, bind at 1 in E.
  rewrite (fetch_answered _ _ _ Hinfo) in E. unfold bind at 1 in E.
  rewrite save_cases in E. cbn [after_request sessions] in E.
  destruct (save_fault (sessions w)) as [[e|e]|].
  - destruct (n <? max_retries - 1)%Z.
    + unfold bind in E. rewrite sleep_negative in E by lia.
      injection E as <- <-. split; [reflexivity|]. by left.
    + injection E as <- <-. split; [reflexivity|]. right. eauto.
  - unfold ret in E. destruct (n =? max_retries - 1)%Z;
      injection E as <- <-; (split; [reflexivity|]); right; eauto.
  - destruct (forallb bindable (parameters (fundamentals symbol info))).
    + injection E as <- <-. split; [reflexivity|]. right. eauto.
    + unfold ret in E. destruct (n =? max_retries - 1)%Z;
        injection E as <- <-; (split; [reflexivity|]); right; eauto.
Qed.

(** With a negative delay a symbol ends in the [ValueError] of
    [time.sleep], after one to three requests. *)
Lemma process_symbol_negative (delay : Z) (symbol : string) (c : Counts)
    (w : World) :
  (delay < 0)%Z ->
  exists w',
    one_symbol delay symbol c w = (inl sleep_error, w')
    /\ requests w < requests w' <= 3 + requests w.
Proof.
  intros Hdelay. unfold process_symbol.
  change (py_range 0 max_retries 1) with (@inr Exn _ [0; 1; 2]%Z).
  unfold lift. unfold bind at 1. unfold ret at 1. unfold bind at 1.
  cbn [for_each].
  destruct (attempt_once_negative symbol delay 0 c w Hdelay)
    as (w0 & R0 & [E0|(f0 & c0 & E0)]); unfold bind at 1; rewrite E0.
  { exists w0. split; [reflexivity|lia]. }
  destruct f0.
  2:{ unfold ret at 1. unfold bind at 1. rewrite sleep_negative by done.
      exists w0. split; [reflexivity|lia]. }
  destruct (attempt_once_negative symbol delay 1 c0 w0 Hdelay)
    as (w1 & R1 & [E1|(f1 & c1 & E1)]); unfold bind at 1; rewrite E1.
  { exists w1. split; [reflexivity|lia]. }
  destruct f1.
  2:{ unfold ret at 1. unfold bind at 1. rewrite sleep_negative by done.
      exists w1. split; [reflexivity|lia]. }
  destruct (attempt_once_negative symbol delay 2 c1 w1 Hdelay)
    as (w2 & R2 & [E2|(f2 & c2 & E2)]); unfold bind at 1; rewrite E2.
  { exists w2. split; [reflexivity|lia]. }
  exists w2. split; [|lia].
  destruct f2; unfold ret at 1; unfold bind at 1; by rewrite sleep_negative.
Qed.

Lemma first_batch (symbol : string) (rest : list string) (batch_size : Z) :
  (0 < batch_size)%Z ->
  exists more, batch_of (symbol :: rest) batch_size 0 = symbol :: more.
Proof.
  intros Hb. unfold batch_of, py_slice, slice_index.
  set (n := Z.of_nat (length (symbol :: rest))).
  assert (1 <= n)%Z by (subst n; cbn [length]; lia).
  destruct (Z.ltb_spec 0 0) as [?|_]; [lia|].
  destruct (Z.ltb_spec (Z.min (0 + batch_size) n) 0) as [?|_]; [lia|].
  replace (Z.to_nat (Z.min 0 n)) with 0 by lia.
  destruct (Z.to_nat (Z.min (Z.min (0 + batch_size) n) n - Z.min 0 n))
    as [|k] eqn:Hk; [lia|].
  cbn. eauto.
Qed.

Lemma first_start (total batch_size : Z) :
  (0 < batch_size)%Z -> (1 <= total)%Z ->
  exists starts, py_range 0 total batch_size = inr (0%Z :: starts).
Proof.
  intros Hb Ht. unfold py_range.
  destruct (Z.eqb_spec batch_size 0) as [?|_]; [lia|].
  destruct (Z.ltb_spec 0 batch_size) as [_|?]; [|lia].
  assert (1 <= (total - 0 + batch_size - 1) / batch_size)%Z
    by (apply Z.div_le_lower_bound; lia).
  destruct (Z.to_nat ((total - 0 + batch_size - 1) / batch_size))
    as [|k] eqn:Hk; [lia|].
  cbn [seq map]. replace (0 + batch_size * Z.of_nat 0)%Z with 0%Z by lia.
  eauto.
Qed.

(** X18. The delay is not checked either: with a negative delay a run over
    a list that is not empty stops at its first symbol with the
    [ValueError] of [time.sleep], after at most three requests; no counts
    are returned, although the symbol may have been saved before. *)
Theorem negative_delay_aborts_the_run (batch_size delay : Z) (w : World) :
  (0 < batch_size)%Z -> (delay < 0)%Z ->
  (forall symbol rest,
     exists w',
       scrape (symbol :: rest) batch_size delay w = (inl sleep_error, w')
       /\ requests w < requests w' <= 3 + requests w)
  /\ (exists w',
        scrape_all_stocks ticker_info save_fault current_timestamp batch_size
          delay w = (inl sleep_error, w')
        /\ requests w < requests w' <= 3 + requests w).
Proof.
  intros Hb Hdelay.
  assert (H : forall symbol rest,
    exists w',
      scrape (symbol :: rest) batch_size delay w = (inl sleep_error, w')
      /\ requests w < requests w' <= 3 + requests w).
  { intros symbol rest. unfold scrape_stocks.
    destruct (first_start (Z.of_nat (length (symbol :: rest))) batch_size Hb
                ltac:(cbn [length]; lia)) as [starts ->].
    unfold lift. unfold bind at 1. unfold ret at 1. unfold bind at 1.
    cbn [for_each]. unfold bind at 1. unfold process_batch at 1.
    fold (batch_of (symbol :: rest) batch_size 0).
    destruct (first_batch symbol rest batch_size Hb) as [more ->].
    unfold bind at 1. cbn [for_each]. unfold bind at 1.
    destruct (process_symbol_negative delay symbol (MkCounts 0 0) w Hdelay)
      as (w' & E & Hreq).
    rewrite E. by exists w'. }
  split; [exact H|]. unfold scrape_all_stocks.
  destruct (get_nse_top_stocks 200) as [|symbol rest] eqn:Hlist.
  - vm_compute in Hlist. discriminate Hlist.
  - apply H.
Qed.

(** *** An empty answer *)

(** X19. An answer of the provider without any of the fields counts as a
    success: with the database in order, the first attempt stores a row
    for the symbol whose name, sector and industry are empty strings and
    whose other fields are NULL, and no further request is made. *)
Theorem empty_answer_is_saved (delay : Z) (symbol : string) (c : Counts)
    (w : World) :
  (0 <= delay)%Z ->
  ticker_info (requests w) symbol = inr ∅ ->
  save_fault (sessions w) = None ->
  exists id w',
    one_symbol delay symbol c w
    = (inr (Next, MkCounts (successful c + 1) (failed c)), w')
    /\ rows_of symbol (stocks_table w')
       = [MkRow id (blank symbol) (current_timestamp (sessions w))]
    /\ requests w' = 1 + requests w.
Proof.
  intros Hdelay Hinfo Hfault.
  assert (Hattempt :
    attempt symbol delay 0 c w
    = (inr (Break, MkCounts (successful c + 1) (failed c)),
       insert_or_replace (blank symbol) (current_timestamp (sessions w))
         (after_session (after_request w)))).
  { unfold attempt_once, try_except, bind at 1.
    rewrite (fetch_answered _ _ _ Hinfo). unfold bind at 1.
    rewrite save_cases. cbn [after_request sessions]. rewrite Hfault.
    reflexivity. }
  destruct (insert_or_replace_rows_of (blank symbol)
              (current_timestamp (sessions w)) (after_session (after_request w)))
    as [id Hid].
  exists id. eexists. split; [|split].
  - unfold process_symbol.
    change (py_range 0 max_retries 1) with (@inr Exn _ [0; 1; 2]%Z).
    unfold lift. unfold bind at 1. unfold ret at 1. unfold bind at 1.
    cbn [for_each]. unfold bind at 1. rewrite Hattempt.
    unfold ret at 1. unfold bind at 1. rewrite (sleep_ok _ _ Hdelay).
    reflexivity.
  - exact Hid.
  - reflexivity.
Qed.

End LoaderFacts.

(** *** The theorems at work *)

Section Witnesses.

Import Sample.

Abbreviation process_ok :=
  (Screener.process_user_message ascii_lower float_repr connect_ok select_15
     model_ok).
Abbreviation process_down :=
  (Screener.process_user_message ascii_lower float_repr connect_ok select_15
     model_down).
Abbreviation process_locked :=
  (Screener.process_user_message ascii_lower float_repr connect_locked select_15
     model_ok).

(** A greeting leaves the stocks of the earlier lookup in place; a request
    to show stocks opens the database. *)
Lemma process_user_message_lookup_frame_witness :
  Screener.current_stocks (process_ok screener "Hello there").1.2
    = Screener.current_stocks screener
  /\ In (Screener.EvConnect "stocks.db")
       (process_ok screener "SHOW me cheap stocks").2.
Proof.
  split.
  - apply (proj2 (process_user_message_lookup_frame ascii_lower float_repr
                    connect_ok select_15 model_ok screener "Hello there")).
    vm_compute. reflexivity.
  - apply (proj1 (process_user_message_lookup_frame ascii_lower float_repr
                    connect_ok select_15 model_ok screener
                    "SHOW me cheap stocks")).
    vm_compute. reflexivity.
Defined.

(** With the model out of quota the answer is the apology, and it is the
    seventh turn of the history. *)
Lemma ai_failure_yields_apology_witness :
  (process_down screener "Hello there").1.1
    = "Sorry, I encountered an error: 429 quota exceeded"
  /\ Screener.conversation_history (process_down screener "Hello there").1.2
     = six_turns
       ++ [Screener.MkTurn "Hello there"
             "Sorry, I encountered an error: 429 quota exceeded"].
Proof.
  apply (ai_failure_yields_apology ascii_lower float_repr connect_ok select_15
           model_down screener "Hello there" (MkExn "429 quota exceeded")).
  intros prompt _. reflexivity.
Defined.

(** With the database locked the lookup gives nothing and the engine
    reports zero stocks. *)
Lemma search_stocks_catches_errors_witness :
  (Screener.search_stocks ascii_lower connect_locked select_15 screener
     "show me cheap stocks").1 = []
  /\ Screener.current_stocks (process_locked screener "show me cheap stocks").1.2
     = [].
Proof.
  destruct (search_stocks_catches_errors ascii_lower float_repr connect_locked
              select_15 model_ok screener "show me cheap stocks"
              (MkExn "database is locked") (or_introl eq_refl))
    as [(trace & _ & Hsearch) Hprocess].
  split.
  - by rewrite Hsearch.
  - apply Hprocess. vm_compute. reflexivity.
Defined.

(** A return on equity of 0.18 is stored as 18.0, a dividend yield of 0
    as 0. *)
Lemma percentage_fields_scaled_witness :
  exists d,
    (Scraper.fetch_stock_data_yfinance online "RELIANCE.NS"
       Scraper.fresh_world).1 = inr (Some d)
    /\ Scraper.roe d = PyFloat 18
    /\ Scraper.dividend_yield d = PyInt 0.
Proof.
  destruct (percentage_fields_scaled online "RELIANCE.NS" Scraper.fresh_world
              info_a eq_refl)
    as (d & Hd & Hroe & _ & _ & Hdiv & _).
  exists d. split; [exact Hd|]. split.
  - rewrite Hroe. vm_compute. reflexivity.
  - rewrite Hdiv. vm_compute. reflexivity.
Defined.

(** A forward P/E of 0 gives way to the trailing P/E of 25.0, a current
    price of 0.0 to the regular market price. *)
Lemma zero_preferred_value_falls_back_witness :
  exists d,
    (Scraper.fetch_stock_data_yfinance online "RELIANCE.NS"
       Scraper.fresh_world).1 = inr (Some d)
    /\ Scraper.pe_ratio d = PyFloat 0x1.9p+4
    /\ Scraper.price d = PyInt 2900.
Proof.
  destruct (zero_preferred_value_falls_back online "RELIANCE.NS"
              Scraper.fresh_world info_a eq_refl)
    as (d & Hd & Hpe & Hprice & _).
  exists d. split; [exact Hd|]. split.
  - rewrite Hpe by (vm_compute; reflexivity). vm_compute. reflexivity.
  - rewrite Hprice by (vm_compute; reflexivity). vm_compute. reflexivity.
Defined.

(** Two saves for one symbol on a fresh store leave the second record. *)
Lemma upsert_replaces_row_witness :
  let d1 := LoaderSpec.fundamentals "RELIANCE.NS" info_a in
  let d2 := LoaderSpec.fundamentals "RELIANCE.NS" info_b in
  let w1 := (Scraper.save_to_database no_fault timestamp (Some d1)
               Scraper.fresh_world).2 in
  let w2 := (Scraper.save_to_database no_fault timestamp (Some d2) w1).2 in
  exists id now,
    LoaderSpec.rows_of "RELIANCE.NS" (Scraper.stocks_table w2)
    = [Scraper.MkRow id d2 now].
Proof.
  intros d1 d2 w1 w2.
  apply (upsert_replaces_row no_fault timestamp d1 d2 Scraper.fresh_world w1 w2);
    reflexivity.
Defined.

(** With the provider unreachable, the symbol takes three requests, counts
    as one failure, and the log of sleeps holds the two seconds after the
    last attempt and nothing else. *)
Lemma failed_fetches_retry_without_wait_witness :
  Scraper.process_symbol offline no_fault timestamp 2 "RELIANCE.NS"
    (Scraper.MkCounts 0 0) Scraper.fresh_world
  = (inr (Scraper.Next, Scraper.MkCounts 0 1),
     Scraper.MkWorld [] 0 3 0 [2%Z]).
Proof.
  apply (failed_fetches_retry_without_wait offline no_fault timestamp 2
           "RELIANCE.NS" [] (Scraper.MkCounts 0 0) Scraper.fresh_world).
  - lia.
  - intros k _. by exists (MkExn "connection refused").
Defined.

End Witnesses.

(** *** Examples *)

Example range_of_attempts : py_range 0 Scraper.max_retries 1 = inr [0; 1; 2]%Z.
Proof. reflexivity. Qed.

Example range_of_batches :
  py_range 0 165 50 = inr [0; 50; 100; 150]%Z.
Proof. reflexivity. Qed.

Example range_zero_step :
  py_range 0 165 0 = inl (MkExn "range() arg 3 must not be zero").
Proof. reflexivity. Qed.

Example slice_last_four :
  py_slice [1; 2; 3; 4; 5; 6] (Some (-4)%Z) None = [3; 4; 5; 6].
Proof. reflexivity. Qed.

Example slice_short : py_slice [1; 2] (Some (-4)%Z) None = [1; 2].
Proof. reflexivity. Qed.

Example lower_ascii : ascii_lower "Find CHEAP Stocks!" = "find cheap stocks!".
Proof. reflexivity. Qed.

Example universe_size : length (Scraper.get_nse_top_stocks 200) = 165.
Proof. reflexivity. Qed.

(** The safety keyword loses against the growth keyword that precedes it
    in the order of priority. *)
Example growth_before_safety :
  Screener.create_sql_query ascii_lower "Safe stocks that are Growing"
  = Screener.sql_growth.
Proof. vm_compute. reflexivity. Qed.

(** After six turns the prompt quotes turns three to six and not the
    second. *)
Example six_turns_prompt :
  let prompt := Screener.create_ai_prompt Sample.float_repr Sample.screener
                  "Hello there" [] in
  contains "User: question 2" prompt = false
  /\ contains "User: question 3" prompt = true
  /\ contains "You: answer 6" prompt = true.
Proof. vm_compute. repeat split. Qed.

(** Of fifteen rows found the prompt lists eight, and it does not list the
    stock kept from an earlier lookup. *)
Example fifteen_rows_prompt :
  let prompts :=
    Screener.sent_prompts
      (Screener.process_user_message ascii_lower Sample.float_repr
         Sample.connect_ok Sample.select_15 Sample.model_ok Sample.screener
         "show me cheap stocks").2 in
  length prompts = 1
  /\ Forall (fun prompt =>
               contains "8. Company 8 (S8)" prompt = true
               /\ contains "9. Company 9" prompt = false
               /\ contains "ROE: 18%" prompt = true
               /\ contains "OLD" prompt = false) prompts.
Proof.
  vm_compute. split; [reflexivity|].
  repeat constructor.
Qed.

(** A whole run over three symbols with the provider unreachable: nine
    requests, three failures, and sleeps of [delay] and [delay * 3] only. *)
Example unreachable_provider_run :
  Scraper.scrape_stocks Sample.offline Sample.no_fault Sample.timestamp
    ["A.NS"; "B.NS"; "C.NS"] 2 2 Scraper.fresh_world
  = (inr (0, 3)%Z, Scraper.MkWorld [] 0 9 0 [2; 2; 6; 2]%Z).
Proof. vm_compute. reflexivity. Qed.

(** The whole universe with the provider unreachable: 165 failures. *)
Example unreachable_provider_universe :
  (Scraper.scrape_all_stocks Sample.offline Sample.no_fault Sample.timestamp
     10 2 Scraper.fresh_world).1
  = inr (0, 165)%Z.
Proof. vm_compute. reflexivity. Qed.

(** *** Further theorems at work *)

Section MoreWitnesses.

Import Sample.

(** The first of the fifteen rows comes back as a dictionary that gives
    its symbol under "symbol". *)
Lemma search_stocks_rows_as_dicts_witness :
  exists stock,
    (Screener.search_stocks ascii_lower connect_ok select_15 screener
       "show me cheap stocks").1 !! 0 = Some stock
    /\ stock !! "symbol" = Some (PyStr "S1").
Proof.
  destruct (search_stocks_rows_as_dicts ascii_lower float_repr connect_ok
              select_15 screener "show me cheap stocks" tt columns
              (map row (seq 1 15)) eq_refl eq_refl
              ltac:(apply (bool_decide_unpack _); vm_compute; exact I))
    as [_ H].
  destruct (H 0 (row 1) eq_refl) as (stock & Hstock & Hcols & _).
  exists stock. split; [exact Hstock|].
  apply (Hcols 1 "symbol" (PyStr "S1")); reflexivity.
Defined.


(** Twelve current stocks are shown as ten lines and a line for the two
    that are left out. *)
Lemma show_current_stocks_listing_witness :
  exists lines,
    length lines = 10
    /\ (Screener.show_current_stocks float_repr screener_12).2
       = Screener.EvPrint (nl +:+ "📊 Current stocks (12):" +:+ nl)
         :: lines ++ [Screener.EvPrint ("... and 2 more" +:+ nl)].
Proof.
  destruct (proj2 (proj2 (show_current_stocks_listing float_repr screener_12))
              ltac:(vm_compute; lia))
    as (lines & Hlen & _ & Htrace).
  exists lines. split; [exact Hlen|exact Htrace].
Defined.


(** "I want high growth" selects the growth template through "growth". *)
Lemma shadowed_keywords_never_decide_witness :
  contains "growth" (ascii_lower "I want HIGH GROWTH") = true.
Proof.
  apply (shadowed_keywords_never_decide ascii_lower "I want HIGH GROWTH").
  vm_compute. reflexivity.
Defined.

(** A save that cannot open the database leaves the fresh store empty. *)
Lemma failed_save_changes_nothing_witness :
  Scraper.stocks_table
    (Scraper.save_to_database fault_connect timestamp
       (Some (LoaderSpec.fundamentals "RELIANCE.NS" info_a))
       Scraper.fresh_world).2
  = [].
Proof.
  apply (failed_save_changes_nothing fault_connect timestamp
           (Some (LoaderSpec.fundamentals "RELIANCE.NS" info_a))
           Scraper.fresh_world _
           (inl (MkExn "unable to open database file")) eq_refl).
  discriminate.
Defined.

(** A market cap of 2^63 is not saved. *)
Lemma oversized_integer_is_not_saved_witness :
  Scraper.save_to_database no_fault timestamp
    (Some (LoaderSpec.fundamentals "HUGE.NS" info_huge)) Scraper.fresh_world
  = (inr false, LoaderSpec.after_session Scraper.fresh_world).
Proof.
  apply (oversized_integer_is_not_saved no_fault timestamp
           (LoaderSpec.fundamentals "HUGE.NS" info_huge) (2 ^ 63)).
  - vm_compute. tauto.
  - right. lia.
  - reflexivity.
Defined.

(** The first save into a fresh store gets the id 1. *)
Lemma saved_row_gets_fresh_id_witness :
  exists id,
    LoaderSpec.rows_of "RELIANCE.NS"
      (Scraper.stocks_table
         (Scraper.save_to_database no_fault timestamp
            (Some (LoaderSpec.fundamentals "RELIANCE.NS" info_a))
            Scraper.fresh_world).2)
    = [Scraper.MkRow id (LoaderSpec.fundamentals "RELIANCE.NS" info_a) "t0"]
    /\ (0 < id)%Z.
Proof.
  destruct (saved_row_gets_fresh_id no_fault timestamp
              (LoaderSpec.fundamentals "RELIANCE.NS" info_a)
              Scraper.fresh_world _ eq_refl)
    as (id & Hrows & _ & Hid & _).
  exists id. split; [exact Hrows|exact Hid].
Defined.

(** With the database file missing the three attempts are four seconds
    apart. *)
Lemma connect_errors_retry_with_wait_witness :
  exists w',
    Scraper.process_symbol online fault_connect timestamp 2 "RELIANCE.NS"
      (Scraper.MkCounts 0 0) Scraper.fresh_world
    = (inr (Scraper.Next, Scraper.MkCounts 0 1), w')
    /\ Scraper.slept w' = [4; 4; 2]%Z.
Proof.
  destruct (connect_errors_retry_with_wait online fault_connect timestamp 2
              "RELIANCE.NS" (Scraper.MkCounts 0 0) Scraper.fresh_world
              ltac:(lia)
              ltac:(intros k _; eexists; reflexivity)
              ltac:(intros k _; eexists; reflexivity))
    as (w' & Hrun & Hslept & _).
  exists w'. split; [exact Hrun|exact Hslept].
Defined.

(** One symbol with the provider unreachable and a delay of two seconds. *)
Lemma symbol_is_saved_or_left_alone_witness :
  exists c' w',
    Scraper.process_symbol offline no_fault timestamp 2 "RELIANCE.NS"
      (Scraper.MkCounts 0 0) Scraper.fresh_world
    = (inr (Scraper.Next, c'), w').
Proof.
  destruct (symbol_is_saved_or_left_alone offline no_fault timestamp 2
              "RELIANCE.NS" (Scraper.MkCounts 0 0) Scraper.fresh_world
              ltac:(lia))
    as (c' & w' & Hrun & _).
  exists c', w'. exact Hrun.
Defined.

(** A run over the whole universe in batches of ten counts 165 symbols. *)
Lemma every_symbol_is_counted_once_witness :
  exists done missed w',
    Scraper.scrape_all_stocks online no_fault timestamp 10 2 Scraper.fresh_world
    = (inr (done, missed), w')
    /\ (done + missed = 165)%Z.
Proof.
  destruct (proj2 (every_symbol_is_counted_once online no_fault timestamp
                     [] 10 2 Scraper.fresh_world ltac:(lia) ltac:(lia)))
    as (done & missed & w' & Hrun & _ & _ & Hsum & _).
  exists done, missed, w'. split; [exact Hrun|exact Hsum].
Defined.

(** The fresh store has no two rows for a symbol, nor has it after a run. *)
Lemma run_keeps_symbols_unique_witness :
  LoaderSpec.unique_symbols
    (Scraper.stocks_table
       (Scraper.scrape_all_stocks online no_fault timestamp 10 2
          Scraper.fresh_world).2).
Proof.
  apply (run_keeps_symbols_unique online no_fault timestamp [] 10 2
           Scraper.fresh_world).
  apply NoDup_nil_2.
Defined.

(** A batch size of zero. *)
Lemma batch_size_is_not_checked_witness :
  Scraper.scrape_all_stocks online no_fault timestamp 0 2 Scraper.fresh_world
  = (inl (MkExn "range() arg 3 must not be zero"), Scraper.fresh_world).
Proof.
  by apply (batch_size_is_not_checked online no_fault timestamp 0 2
              Scraper.fresh_world).
Defined.

(** A delay of minus one second. *)
Lemma negative_delay_aborts_the_run_witness :
  exists w',
    Scraper.scrape_all_stocks online no_fault timestamp 10 (-1)
      Scraper.fresh_world
    = (inl LoaderSpec.sleep_error, w').
Proof.
  destruct (proj2 (negative_delay_aborts_the_run online no_fault timestamp 10
                     (-1) Scraper.fresh_world ltac:(lia) ltac:(lia)))
    as (w' & Hrun & _).
  exists w'. exact Hrun.
Defined.

(** An empty answer for a symbol is stored as a row of its own. *)
Lemma empty_answer_is_saved_witness :
  exists id w',
    Scraper.process_symbol online_empty no_fault timestamp 2 "GHOST.NS"
      (Scraper.MkCounts 0 0) Scraper.fresh_world
    = (inr (Scraper.Next, Scraper.MkCounts 1 0), w')
    /\ LoaderSpec.rows_of "GHOST.NS" (Scraper.stocks_table w')
       = [Scraper.MkRow id (LoaderSpec.blank "GHOST.NS") "t0"].
Proof.
  destruct (empty_answer_is_saved online_empty no_fault timestamp 2 "GHOST.NS"
              (Scraper.MkCounts 0 0) Scraper.fresh_world
              ltac:(lia) eq_refl eq_refl)
    as (id & w' & Hrun & Hrows & _).
  exists id, w'. split; [exact Hrun|exact Hrows].
Defined.

End MoreWitnesses.
